(** * Mython statement evaluator: [ast::*::Execute] of statement.cpp

    A shallow embedding of the tree-walking evaluator of src/mython/statement.cpp
    and statement.h.  Every node class of namespace [ast] is a constructor of
    [Statement]; every [Execute] method is a case of the function [Execute].

    The evaluator threads three pieces of mutable state, all passed by
    reference in the C++ code:
    - the [Closure] the statement runs against,
    - the characters written so far to [context.GetOutputStream()],
    - the field maps of the class instances ([ClassInstance::Fields()]),
      keyed by the address of the instance.
    A call completes by returning, by throwing, or not at all. *)

From Stdlib Require Import ZArith Lia Ascii String.
From stdpp Require Import base option strings gmap list pretty.

Local Open Scope Z_scope.
Local Open Scope string_scope.

(** ** Machine integers

    [runtime::Number] holds an [int]; [Div::Execute] stores its quotient in an
    [int].  Arithmetic is taken modulo 2^32 into the signed range. *)

Definition INT_MIN : Z := - 2 ^ 31.
Definition INT_MAX : Z := 2 ^ 31 - 1.

Definition wrap_int (z : Z) : Z := (z + 2 ^ 31) mod 2 ^ 32 - 2 ^ 31.

Definition in_int (z : Z) : Prop := INT_MIN <= z <= INT_MAX.

(** ** Values and handles (namespace [runtime]) *)

Module runtime.

(** A [const runtime::Class &] is a pointer to a class descriptor that lives
    outside the syntax tree; an instance is identified by its address. *)
Definition ClassPtr := N.
Definition Addr := N.

(** [runtime::ClassInstance]: the class it was built from (fixed at
    construction) and the place where its field map lives. *)
Record ClassInstance := { cls : ClassPtr; addr : Addr }.

Inductive Object :=
| Number (v : Z)
| String (v : string)
| Bool (v : bool)
| Class (c : ClassPtr)
| Instance (i : ClassInstance).

(** [runtime::ObjectHolder]: empty, owning a freshly allocated object
    ([ObjectHolder::Own]) or referring to an object that lives elsewhere
    ([ObjectHolder::Share]). *)
Inductive ObjectHolder :=
| None
| Own (o : Object)
| Share (o : Object).

(** [ObjectHolder::Get]: null for the empty handle. *)
Definition Get (h : ObjectHolder) : option Object :=
  match h with
  | None => Datatypes.None
  | Own o | Share o => Some o
  end.

End runtime.

Abbreviation ObjectHolder := runtime.ObjectHolder.
Abbreviation Object := runtime.Object.
Abbreviation ClassInstance := runtime.ClassInstance.
Abbreviation ClassPtr := runtime.ClassPtr.
Abbreviation Addr := runtime.Addr.

(** [ObjectHolder::TryAs<T>]: the referent when it is exactly a [T]. *)
Definition TryAs_Number (h : ObjectHolder) : option Z :=
  match runtime.Get h with Some (runtime.Number v) => Some v | _ => None end.

Definition TryAs_String (h : ObjectHolder) : option string :=
  match runtime.Get h with Some (runtime.String v) => Some v | _ => None end.

Definition TryAs_Class (h : ObjectHolder) : option ClassPtr :=
  match runtime.Get h with Some (runtime.Class c) => Some c | _ => None end.

Definition TryAs_ClassInstance (h : ObjectHolder) : option ClassInstance :=
  match runtime.Get h with Some (runtime.Instance i) => Some i | _ => None end.

(** [runtime::Closure] is [std::unordered_map<std::string, ObjectHolder>]. *)
Abbreviation Closure := (gmap string ObjectHolder).

(** What [Execute] can change besides the closure it is given. *)
Record Store := {
  out : string;                (* written to context.GetOutputStream() *)
  fields : gmap Addr Closure   (* ClassInstance::Fields() by address *)
}.

(** The field map of the instance at [a]; a newly constructed instance has
    no fields. *)
Definition Fields (s : Store) (a : Addr) : Closure := default ∅ (fields s !! a).

Definition set_Fields (a : Addr) (f : Closure) (s : Store) : Store :=
  {| out := out s; fields := <[a := f]> (fields s) |}.

Definition put (text : string) (s : Store) : Store :=
  {| out := out s +:+ text; fields := fields s |}.

(** ** Completions *)

Inductive Exception :=
| ThrownObject (obj : ObjectHolder)   (* throw of an ObjectHolder, by Return *)
| runtime_error (what : string)       (* std::runtime_error *)
| out_of_range.                       (* std::out_of_range, by unordered_map::at *)

(** [Undefined]: the call has no defined result (it does not return, or it
    dereferences a null pointer). *)
Inductive Completion (A : Type) :=
| Returned (a : A)
| Raised (e : Exception)
| Undefined.
Arguments Returned {A} a.
Arguments Raised {A} e.
Arguments Undefined {A}.

(** A computation against a closure and a store. *)
Definition M (A : Type) : Type := Closure -> Store -> Completion A * Closure * Store.

Definition ret {A} (a : A) : M A := fun c s => (Returned a, c, s).

Definition raise {A} (e : Exception) : M A := fun c s => (Raised e, c, s).

(** No defined result from here on. *)
Definition undefined {A} : M A := fun c s => (Undefined, c, s).

Definition bind {A B} (m : M A) (k : A -> M B) : M B :=
  fun c s =>
    match m c s with
    | (Returned a, c', s') => k a c' s'
    | (Raised e, c', s') => (Raised e, c', s')
    | (Undefined, c', s') => (Undefined, c', s')
    end.

Notation "'do' x <- m ; k" := (bind m (fun x => k))
  (at level 10, x name, m at level 100, k at level 200).

(** A runtime operation that takes the context but not the closure. *)
Definition lift {A} (f : Store -> Completion A * Store) : M A :=
  fun c s => let '(r, s') := f s in (r, c, s').

Definition write (text : string) : M unit := fun c s => (Returned tt, c, put text s).

(** [closure[name] = h] *)
Definition closure_set (name : string) (h : ObjectHolder) : M unit :=
  fun c s => (Returned tt, <[name := h]> c, s).

(** [closure.at(name)] *)
Definition closure_at (name : string) : M ObjectHolder :=
  fun c s =>
    match c !! name with
    | Some h => (Returned h, c, s)
    | None => (Raised out_of_range, c, s)
    end.

(** [fields.at(name)] on the instance at [a] *)
Definition fields_at (a : Addr) (name : string) : M ObjectHolder :=
  fun c s =>
    match Fields s a !! name with
    | Some h => (Returned h, c, s)
    | None => (Raised out_of_range, c, s)
    end.

(** [fields[name] = h] on the instance at [a] *)
Definition fields_set (a : Addr) (name : string) (h : ObjectHolder) : M unit :=
  fun c s => (Returned tt, c, set_Fields a (<[name := h]> (Fields s a)) s).

Definition endl : string := String "010"%char "".

(** ** The runtime the evaluator calls into

    statement.cpp is written against runtime.h: truth of a value, method
    lookup and invocation on a class instance, printing of an object and the
    name of a class.  The evaluator is defined over any such runtime; the
    operations that run user code take the store and may change it, throw,
    or fail to return.

    [Object_Print] gives the text an object writes to the stream it is
    handed, next to what running its [__str__] does to the store.

    One choice of the C++ compiler belongs here as well: the arguments of a
    call are evaluated one after the other, but in an order the language
    leaves open.  [Comparison::Execute] runs its two operands as arguments
    of one call, so [arguments_right_to_left] tells which operand goes first
    (g++ starts with the last argument). *)

Record Runtime := {
  IsTrue : ObjectHolder -> bool;
  HasMethod : ClassPtr -> string -> nat -> bool;
  Call : ClassInstance -> string -> list ObjectHolder ->
         Store -> Completion ObjectHolder * Store;
  Object_Print : Object -> Store -> Completion string * Store;
  GetName : ClassPtr -> string;
  arguments_right_to_left : bool
}.

(** [Comparison::Comparator], a [std::function] over two handles and the
    context. *)
Definition Comparator : Type :=
  ObjectHolder -> ObjectHolder -> Store -> Completion bool * Store.

(** ** Statements (namespace [ast]) *)

(** One constructor per node class, with the private members of the class as
    arguments.  [None_] is [ast::None].  A [NewInstance] node owns its
    [class_instance_] member; [addr] of that member is the address of the
    node's own instance, so two different nodes never carry the same one. *)
#[warnings="-register-all"] Inductive Statement :=
| NumericConst (value_ : Z)
| StringConst (value_ : string)
| BoolConst (value_ : bool)
| VariableValue (var_name_ : string) (dotted_ids_ : list string)
| Assignment (var_ : string) (rv_ : Statement)
| FieldAssignment (object_ : string * list string) (field_name_ : string)
                  (rv_ : Statement)
| None_
| Print (args_ : list Statement)
| MethodCall (object_ : Statement) (method_ : string) (args_ : list Statement)
| NewInstance (class_instance_ : ClassInstance) (args_ : list Statement)
| Stringify (argument_ : Statement)
| Add (lhs_ rhs_ : Statement)
| Sub (lhs_ rhs_ : Statement)
| Mult (lhs_ rhs_ : Statement)
| Div (lhs_ rhs_ : Statement)
| Or (lhs_ rhs_ : Statement)
| And (lhs_ rhs_ : Statement)
| Not (argument_ : Statement)
| Compound (args_ : list Statement)
| MethodBody (body_ : Statement)
| Return (statement_ : Statement)
| ClassDefinition (cls_ : ObjectHolder)
| IfElse (condition_ if_body_ : Statement) (else_body_ : option Statement)
| Comparison (comparator_ : Comparator) (lhs_ rhs_ : Statement).

Definition ADD_METHOD : string := "__add__".
Definition INIT_METHOD : string := "__init__".

Section Evaluator.

Variable rt : Runtime.

(** [VariableValue::Execute]: the loop over [dotted_ids_]. *)
Fixpoint VariableValue_loop (current_object : ObjectHolder)
         (dotted_ids : list string) : M ObjectHolder :=
  match dotted_ids with
  | [] => ret current_object
  | id :: rest =>
      match TryAs_ClassInstance current_object with
      | Some current_ptr =>
          do next <- fields_at (runtime.addr current_ptr) id;
          VariableValue_loop next rest
      | None => VariableValue_loop current_object rest
      end
  end.

Definition VariableValue_Execute (var_name : string)
           (dotted_ids : list string) : M ObjectHolder :=
  fun closure s =>
    match closure !! var_name with
    | Some current_object =>
        VariableValue_loop current_object dotted_ids closure s
    | None =>
        raise (runtime_error "Failed to VariableValue::Execute!") closure s
    end.

(** The argument loops of [MethodCall::Execute] and [NewInstance::Execute]:
    each result is pushed to the back of the vector. *)
Definition ExecuteArgs (exec : Statement -> M ObjectHolder)
  : list ObjectHolder -> list Statement -> M (list ObjectHolder) :=
  fix loop method_args args :=
    match args with
    | [] => ret method_args
    | arg :: rest =>
        do h <- exec arg;
        loop (method_args ++ [h])%list rest
    end.

(** What [Print::Execute] and [Stringify::Execute] write for a handle. *)
Definition print_object (object : ObjectHolder) : M unit :=
  match runtime.Get object with
  | Some o => do text <- lift (Object_Print rt o); write text
  | None => write "None"
  end.

(** The loop of [Print::Execute]. *)
Definition Print_loop (exec : Statement -> M ObjectHolder)
  : bool -> list Statement -> M unit :=
  fix loop is_first args :=
    match args with
    | [] => ret tt
    | arg :: rest =>
        do _ <- (if negb is_first then write " " else ret tt);
        do object <- exec arg;
        do _ <- print_object object;
        loop false rest
    end.

(** The loop of [Compound::Execute]. *)
Definition Compound_loop (exec : Statement -> M ObjectHolder)
  : list Statement -> M unit :=
  fix loop args :=
    match args with
    | [] => ret tt
    | arg :: rest => do _ <- exec arg; loop rest
    end.

(** The handlers of [MethodBody::Execute]. *)
Definition MethodBody_try (body : M ObjectHolder) : M ObjectHolder :=
  fun closure s =>
    match body closure s with
    | (Raised (ThrownObject obj), closure', s') => (Returned obj, closure', s')
    | (Raised _, closure', s') =>
        (Raised (runtime_error "MethodBody::Catched undefined object"),
         closure', s')
    | r => r
    end.

(** The common prologue of [Sub], [Mult] and [Div]. *)
Definition number_operands (l r : ObjectHolder) : option (Z * Z) :=
  match TryAs_Number l, TryAs_Number r with
  | Some a, Some b => Some (a, b)
  | _, _ => None
  end.

(** [Add::Execute] past the [__add__] dispatch: the two [ADDABLE_VALUE]
    blocks, strings first, and the final throw. *)
Definition Add_values (l r : ObjectHolder) : M ObjectHolder :=
  match TryAs_String l, TryAs_String r with
  | Some a, Some b => ret (runtime.Own (runtime.String (a +:+ b)))
  | _, _ =>
      match TryAs_Number l, TryAs_Number r with
      | Some a, Some b => ret (runtime.Own (runtime.Number (wrap_int (a + b))))
      | _, _ => raise (runtime_error "Failed to Add::Execute ")
      end
  end.

Fixpoint Execute (stmt : Statement) : M ObjectHolder :=
  match stmt with
  | NumericConst v => ret (runtime.Share (runtime.Number v))
  | StringConst v => ret (runtime.Share (runtime.String v))
  | BoolConst v => ret (runtime.Share (runtime.Bool v))
  | VariableValue var_name dotted_ids =>
      VariableValue_Execute var_name dotted_ids
  | Assignment var rv =>
      (* the right operand of = runs before closure[var_] is looked up *)
      do value <- Execute rv;
      do _ <- closure_set var value;
      closure_at var
  | FieldAssignment (var_name, dotted_ids) field_name rv =>
      do object <- VariableValue_Execute var_name dotted_ids;
      match TryAs_ClassInstance object with
      | Some class_ptr =>
          (* likewise: rv_ runs before fields[field_name_] is looked up *)
          do value <- Execute rv;
          do _ <- fields_set (runtime.addr class_ptr) field_name value;
          fields_at (runtime.addr class_ptr) field_name
      | None => raise (runtime_error "Failed to FieldAssignment::Execute ")
      end
  | None_ => ret runtime.None
  | Print args =>
      do _ <- Print_loop Execute true args;
      do _ <- write endl;
      ret runtime.None
  | MethodCall object method args =>
      do current_object <- Execute object;
      match TryAs_ClassInstance current_object with
      | Some class_ptr =>
          do method_args <- ExecuteArgs Execute [] args;
          lift (Call rt class_ptr method method_args)
      | None => ret runtime.None
      end
  | NewInstance class_instance args =>
      if HasMethod rt (runtime.cls class_instance) INIT_METHOD (length args)
      then
        do tmp_args <- ExecuteArgs Execute [] args;
        do _ <- lift (Call rt class_instance INIT_METHOD tmp_args);
        ret (runtime.Share (runtime.Instance class_instance))
      else ret (runtime.Share (runtime.Instance class_instance))
  | Stringify argument =>
      do executed_arg <- Execute argument;
      match runtime.Get executed_arg with
      | Some o =>
          do result_str <- lift (Object_Print rt o);
          ret (runtime.Own (runtime.String result_str))
      | None => ret (runtime.Own (runtime.String "None"))
      end
  | Add lhs rhs =>
      do l <- Execute lhs;
      do r <- Execute rhs;
      match TryAs_ClassInstance l with
      | Some class_ptr =>
          if HasMethod rt (runtime.cls class_ptr) ADD_METHOD 1
          then lift (Call rt class_ptr ADD_METHOD [r])
          else Add_values l r
      | None => Add_values l r
      end
  | Sub lhs rhs =>
      do l <- Execute lhs;
      do r <- Execute rhs;
      match number_operands l r with
      | Some (a, b) => ret (runtime.Own (runtime.Number (wrap_int (a - b))))
      | None => raise (runtime_error "Failed to Sub::Execute ")
      end
  | Mult lhs rhs =>
      do l <- Execute lhs;
      do r <- Execute rhs;
      match number_operands l r with
      | Some (a, b) => ret (runtime.Own (runtime.Number (wrap_int (a * b))))
      | None => raise (runtime_error "Failed to Mult::Execute ")
      end
  | Div lhs rhs =>
      do l <- Execute lhs;
      do r <- Execute rhs;
      match number_operands l r with
      | Some (a, b) =>
          if decide (b ≠ 0)
          then
            (* lhs / rhs on ints: INT_MIN / -1 does not fit an int, the
               division overflows and the program has no defined result *)
            if decide (a = INT_MIN /\ b = -1)
            then undefined
            else ret (runtime.Own (runtime.Number (wrap_int (Z.quot a b))))
          else raise (runtime_error "Сannot be divided by 0 ")
      | None => raise (runtime_error "Failed to Div::Execute ")
      end
  | Or lhs rhs =>
      do l <- Execute lhs;
      if IsTrue rt l then ret (runtime.Own (runtime.Bool true))
      else
        do r <- Execute rhs;
        if IsTrue rt r then ret (runtime.Own (runtime.Bool true))
        else ret (runtime.Own (runtime.Bool false))
  | And lhs rhs =>
      do l <- Execute lhs;
      if IsTrue rt l then
        do r <- Execute rhs;
        if IsTrue rt r then ret (runtime.Own (runtime.Bool true))
        else ret (runtime.Own (runtime.Bool false))
      else ret (runtime.Own (runtime.Bool false))
  | Not argument =>
      do a <- Execute argument;
      ret (runtime.Own (runtime.Bool (negb (IsTrue rt a))))
  | Compound args =>
      do _ <- Compound_loop Execute args;
      ret runtime.None
  | MethodBody body => MethodBody_try (Execute body)
  | Return statement =>
      do value <- Execute statement;
      raise (ThrownObject value)
  | ClassDefinition cls =>
      match TryAs_Class cls with
      | Some c => do _ <- closure_set (GetName rt c) cls; ret runtime.None
      | None => fun closure s => (Undefined, closure, s)
      end
  | IfElse condition if_body else_body =>
      do c <- Execute condition;
      if IsTrue rt c then Execute if_body
      else
        match else_body with
        | Some else_body => Execute else_body
        | None => ret runtime.None
        end
  | Comparison comparator lhs rhs =>
      (* comparator_(lhs_->Execute(..), rhs_->Execute(..), context): the two
         operands are arguments of one call, run in the compiler's order *)
      if arguments_right_to_left rt
      then
        do r <- Execute rhs;
        do l <- Execute lhs;
        do result <- lift (comparator l r);
        ret (runtime.Own (runtime.Bool result))
      else
        do l <- Execute lhs;
        do r <- Execute rhs;
        do result <- lift (comparator l r);
        ret (runtime.Own (runtime.Bool result))
  end.

End Evaluator.

(** ** A runtime after the specification

    runtime.h and runtime.cpp are not among the sources; the runtime below
    follows sections 3 and 4 of the specification.  It closes the evaluator
    into a whole interpreter, on which the programs of the examples run. *)

Module model.

(** Modelled from the spec: the Method descriptor of section 4.2 (runtime.h
    is missing): a name, the ordered parameter names and a body. *)
Record Method := {
  name : string;
  formal_params : list string;
  body : Statement
}.

(** Modelled from the spec: the Class descriptor of sections 3 and 4.2
    (runtime.h is missing): a name, a method table and an optional parent. *)
Record Class := {
  class_name : string;
  methods : list Method;
  parent : option ClassPtr
}.

Local Abbreviation Runtime_Call := Call.

(** The class descriptors of a program, by address. *)
Abbreviation Classes := (gmap ClassPtr Class).

Section Model.

Variable classes : Classes.

(** Modelled from the spec: truthiness of section 4.1 (runtime::IsTrue is
    missing): None is false, a Bool is itself, a Number is true when
    nonzero, a String when nonempty, a Class or ClassInstance always. *)
Definition IsTrue (h : ObjectHolder) : bool :=
  match runtime.Get h with
  | None => false
  | Some (runtime.Bool b) => b
  | Some (runtime.Number n) => negb (n =? 0)%Z
  | Some (runtime.String s) => negb (String.eqb s "")
  | Some (runtime.Class _) => true
  | Some (runtime.Instance _) => true
  end.

Definition matches (method : string) (argument_count : nat) (m : Method) : bool :=
  String.eqb (name m) method && (length (formal_params m) =? argument_count)%nat.

(** Modelled from the spec: lookup(name, arity) of section 4.2
    (Class::GetMethod is missing): from the class itself up through the
    parent chain, the first method with that name and parameter count.
    [depth] bounds the length of the chain. *)
Fixpoint GetMethod (depth : nat) (c : ClassPtr) (method : string)
         (argument_count : nat) : option Method :=
  match depth with
  | O => None
  | S depth' =>
      match classes !! c with
      | Some k =>
          match List.find (matches method argument_count) (methods k) with
          | Some m => Some m
          | None =>
              match parent k with
              | Some p => GetMethod depth' p method argument_count
              | None => None
              end
          end
      | None => None
      end
  end.

(** Modelled from the spec: has_method(name, arity) of section 4.2
    (HasMethod is missing): the same search, as a boolean. *)
Definition HasMethod (c : ClassPtr) (method : string) (argument_count : nat) : bool :=
  bool_decide (is_Some (GetMethod (size classes) c method argument_count)).

Definition GetName (c : ClassPtr) : string :=
  match classes !! c with
  | Some k => class_name k
  | None => ""
  end.

(** Modelled from the spec: step 4 of call of section 4.2: each parameter
    name is bound to the argument at its position. *)
Fixpoint bind_params (params : list string) (actual_args : list ObjectHolder)
         (closure : Closure) : Closure :=
  match params, actual_args with
  | p :: params', a :: actual_args' =>
      bind_params params' actual_args' (<[p := a]> closure)
  | _, _ => closure
  end.

(** Modelled from the spec: call(instance, method_name, args, context) of
    section 4.2 (ClassInstance::Call is missing): resolve the method,
    failing with a runtime error; bind self and the parameters in a new
    scope; execute the body there and return what it yields. *)
Definition Call (exec : Statement -> M ObjectHolder) (instance : ClassInstance)
           (method : string) (actual_args : list ObjectHolder)
  : Store -> Completion ObjectHolder * Store :=
  fun s =>
    match GetMethod (size classes) (runtime.cls instance) method
                    (length actual_args) with
    | Some m =>
        let closure :=
          bind_params (formal_params m) actual_args
            {[ "self" := runtime.Share (runtime.Instance instance) ]} in
        let '(r, _, s') := exec (body m) closure s in (r, s')
    | None => (Raised (runtime_error "Not implemented"), s)
    end.

(** Modelled from the spec: print of section 4.1 (Object::Print is
    missing): a Number in decimal, a String raw, a Bool as True or False,
    a Class as "Class <name>", an instance through its zero-argument
    [__str__] when it has one. *)
Definition Print (call : ClassInstance -> string -> list ObjectHolder ->
                         Store -> Completion ObjectHolder * Store)
           (print : Object -> Store -> Completion string * Store)
           (o : Object) : Store -> Completion string * Store :=
  fun s =>
    match o with
    | runtime.Number n => (Returned (pretty n), s)
    | runtime.String v => (Returned v, s)
    | runtime.Bool b => (Returned (if b then "True" else "False"), s)
    | runtime.Class c => (Returned ("Class " +:+ GetName c), s)
    | runtime.Instance i =>
        if HasMethod (runtime.cls i) "__str__" 0
        then
          match call i "__str__" [] s with
          | (Returned h, s') =>
              match runtime.Get h with
              | Some o' => print o' s'
              | None => (Undefined, s')
              end
          | (Raised e, s') => (Raised e, s')
          | (Undefined, s') => (Undefined, s')
          end
        else
          (Returned ("<ClassInstance of " +:+ GetName (runtime.cls i) +:+ ">"), s)
    end.

(** The interpreter with method calls nested at most [fuel] deep: a call
    beyond that depth has no result.  The arguments of a call go right to
    left, as g++ compiles them. *)
Fixpoint runtime_of (fuel : nat) : Runtime :=
  match fuel with
  | O =>
      Build_Runtime IsTrue HasMethod
        (fun _ _ _ s => (Undefined, s))
        (Print (fun _ _ _ s => (Undefined, s)) (fun _ s => (Undefined, s)))
        GetName true
  | S fuel' =>
      let rt := runtime_of fuel' in
      Build_Runtime IsTrue HasMethod
        (Call (Execute rt))
        (Print (Runtime_Call rt) (Object_Print rt))
        GetName true
  end.

End Model.

End model.

(** ** Starting points of the examples *)

(** No output yet, no instance with a field. *)
Definition fresh_store : Store := {| out := ""; fields := ∅ |}.

(** The interpreter of a program without classes. *)
Definition plain_runtime : Runtime := model.runtime_of ∅ 0.

(** ** Notions the properties are stated with *)

(** The arguments are run one after the other, the first one first, each in
    the state its predecessor left; the handles come in the same order. *)
Inductive args_in_order (rt : Runtime)
  : list Statement -> Closure -> Store -> list ObjectHolder -> Closure -> Store -> Prop :=
| args_done c s : args_in_order rt [] c s [] c s
| args_next arg rest c s h c1 s1 hs c2 s2 :
    Execute rt arg c s = (Returned h, c1, s1) ->
    args_in_order rt rest c1 s1 hs c2 s2 ->
    args_in_order rt (arg :: rest) c s (h :: hs) c2 s2.





(** Induction over statements, with the hypothesis for every child in the
    argument vectors. *)
Section StatementInduction.

Variable P : Statement -> Prop.

Hypothesis H_NumericConst : forall v, P (NumericConst v).
Hypothesis H_StringConst : forall v, P (StringConst v).
Hypothesis H_BoolConst : forall v, P (BoolConst v).
Hypothesis H_VariableValue : forall n ids, P (VariableValue n ids).
Hypothesis H_Assignment : forall var rv, P rv -> P (Assignment var rv).
Hypothesis H_FieldAssignment :
  forall object field_name rv, P rv -> P (FieldAssignment object field_name rv).
Hypothesis H_None : P None_.
Hypothesis H_Print : forall args, Forall P args -> P (Print args).
Hypothesis H_MethodCall :
  forall object method args, P object -> Forall P args ->
    P (MethodCall object method args).
Hypothesis H_NewInstance : forall i args, Forall P args -> P (NewInstance i args).
Hypothesis H_Stringify : forall a, P a -> P (Stringify a).
Hypothesis H_Add : forall l r, P l -> P r -> P (Add l r).
Hypothesis H_Sub : forall l r, P l -> P r -> P (Sub l r).
Hypothesis H_Mult : forall l r, P l -> P r -> P (Mult l r).
Hypothesis H_Div : forall l r, P l -> P r -> P (Div l r).
Hypothesis H_Or : forall l r, P l -> P r -> P (Or l r).
Hypothesis H_And : forall l r, P l -> P r -> P (And l r).
Hypothesis H_Not : forall a, P a -> P (Not a).
Hypothesis H_Compound : forall args, Forall P args -> P (Compound args).
Hypothesis H_MethodBody : forall body, P body -> P (MethodBody body).
Hypothesis H_Return : forall statement, P statement -> P (Return statement).
Hypothesis H_ClassDefinition : forall cls, P (ClassDefinition cls).
Hypothesis H_IfElse :
  forall condition if_body else_body,
    P condition -> P if_body ->
    match else_body with Some else_ => P else_ | None => True end ->
    P (IfElse condition if_body else_body).
Hypothesis H_Comparison : forall cmp l r, P l -> P r -> P (Comparison cmp l r).

Fixpoint Statement_nested_ind (stmt : Statement) : P stmt :=
  let all :=
    fix all (l : list Statement) : Forall P l :=
      match l with
      | [] => @List.Forall_nil _ P
      | x :: l' => @List.Forall_cons _ P x l' (Statement_nested_ind x) (all l')
      end in
  match stmt with
  | NumericConst v => H_NumericConst v
  | StringConst v => H_StringConst v
  | BoolConst v => H_BoolConst v
  | VariableValue n ids => H_VariableValue n ids
  | Assignment var rv => H_Assignment var rv (Statement_nested_ind rv)
  | FieldAssignment object field_name rv =>
      H_FieldAssignment object field_name rv (Statement_nested_ind rv)
  | None_ => H_None
  | Print args => H_Print args (all args)
  | MethodCall object method args =>
      H_MethodCall object method args (Statement_nested_ind object) (all args)
  | NewInstance i args => H_NewInstance i args (all args)
  | Stringify a => H_Stringify a (Statement_nested_ind a)
  | Add l r => H_Add l r (Statement_nested_ind l) (Statement_nested_ind r)
  | Sub l r => H_Sub l r (Statement_nested_ind l) (Statement_nested_ind r)
  | Mult l r => H_Mult l r (Statement_nested_ind l) (Statement_nested_ind r)
  | Div l r => H_Div l r (Statement_nested_ind l) (Statement_nested_ind r)
  | Or l r => H_Or l r (Statement_nested_ind l) (Statement_nested_ind r)
  | And l r => H_And l r (Statement_nested_ind l) (Statement_nested_ind r)
  | Not a => H_Not a (Statement_nested_ind a)
  | Compound args => H_Compound args (all args)
  | MethodBody body => H_MethodBody body (Statement_nested_ind body)
  | Return statement => H_Return statement (Statement_nested_ind statement)
  | ClassDefinition cls => H_ClassDefinition cls
  | IfElse condition if_body else_body =>
      H_IfElse condition if_body else_body
        (Statement_nested_ind condition) (Statement_nested_ind if_body)
        (match else_body as o
               return match o with Some else_ => P else_ | None => True end with
         | Some else_ => Statement_nested_ind else_
         | None => I
         end)
  | Comparison cmp l r =>
      H_Comparison cmp l r (Statement_nested_ind l) (Statement_nested_ind r)
  end.

End StatementInduction.

(** The statements a closure cannot be changed by: those without an
    [Assignment] and without a [ClassDefinition], the two nodes that write
    to the closure they are given. *)
Fixpoint writes_no_scope (stmt : Statement) : bool :=
  match stmt with
  | NumericConst _ | StringConst _ | BoolConst _ | VariableValue _ _ | None_ => true
  | Assignment _ _ | ClassDefinition _ => false
  | FieldAssignment _ _ rv => writes_no_scope rv
  | Print args | NewInstance _ args | Compound args => forallb writes_no_scope args
  | MethodCall object _ args => writes_no_scope object && forallb writes_no_scope args
  | Stringify a | Not a | MethodBody a | Return a => writes_no_scope a
  | Add l r | Sub l r | Mult l r | Div l r | Or l r | And l r | Comparison _ l r =>
      writes_no_scope l && writes_no_scope r
  | IfElse condition if_body else_body =>
      writes_no_scope condition && writes_no_scope if_body &&
      match else_body with
      | Some else_ => writes_no_scope else_
      | None => true
      end
  end.

(** A computation that hands back the closure it was given. *)
Definition keeps_scope {A} (m : M A) : Prop :=
  forall c s, snd (fst (m c s)) = c.

(** ** Constructors and builders of the nodes *)

(** [VariableValue::VariableValue(std::vector<std::string> dotted_ids)]: the
    first id is the variable, the others are the attribute chain; an empty
    vector leaves both members empty. *)
Definition VariableValue_dotted_ids (dotted_ids : list string) : Statement :=
  match dotted_ids with
  | [] => VariableValue "" []
  | var_name :: rest => VariableValue var_name rest
  end.

(** [Print::Variable]: a print of the one variable [name]. *)
Definition Print_Variable (name : string) : Statement :=
  Print [VariableValue name []].

(** [Compound::AddStatement], on the member [args_] of the compound: the
    statement is pushed to the back. *)
Definition AddStatement (args_ : list Statement) (stmt : Statement) : list Statement :=
  args_ ++ [stmt].

(** A computation that hands back closure and store as it got them. *)
Definition read_only {A} (m : M A) : Prop :=
  forall c s, snd (fst (m c s)) = c /\ snd (m c s) = s.

(** A computation that only adds to what has been written. *)
Definition appends {A} (m : M A) : Prop :=
  forall c s, exists text, out (snd (m c s)) = out s +:+ text.

(** A runtime operation that only adds to what has been written. *)
Definition appends_store {A} (f : Store -> Completion A * Store) : Prop :=
  forall s, exists text, out (snd (f s)) = out s +:+ text.

(** A runtime whose calls and prints only add to what has been written. *)
Definition runtime_appends (rt : Runtime) : Prop :=
  (forall instance method actual_args, appends_store (Call rt instance method actual_args)) /\
  (forall o, appends_store (Object_Print rt o)).

(** The comparators of a statement only add to what has been written. *)
Fixpoint comparators_append (stmt : Statement) : Prop :=
  match stmt with
  | NumericConst _ | StringConst _ | BoolConst _ | VariableValue _ _ | None_
  | ClassDefinition _ => True
  | Assignment _ rv | FieldAssignment _ _ rv => comparators_append rv
  | Print args | NewInstance _ args | Compound args =>
      fold_right (fun arg rest => comparators_append arg /\ rest) True args
  | MethodCall object _ args =>
      comparators_append object /\
      fold_right (fun arg rest => comparators_append arg /\ rest) True args
  | Stringify a | Not a | MethodBody a | Return a => comparators_append a
  | Add l r | Sub l r | Mult l r | Div l r | Or l r | And l r =>
      comparators_append l /\ comparators_append r
  | IfElse condition if_body else_body =>
      comparators_append condition /\ comparators_append if_body /\
      match else_body with
      | Some else_ => comparators_append else_
      | None => True
      end
  | Comparison comparator l r =>
      (forall a b, appends_store (comparator a b)) /\
      comparators_append l /\ comparators_append r
  end.

(** The arguments of a print come out one after the other: each is run and
    its text written before the next one is run, every argument but the
    first after a space. *)
Inductive prints_in_order (rt : Runtime)
  : bool -> list Statement -> Closure -> Store -> Closure -> Store -> Prop :=
| prints_done (is_first : bool) (c : Closure) (s : Store) :
    prints_in_order rt is_first [] c s c s
| prints_next (is_first : bool) arg rest (c : Closure) (s : Store)
              object c1 s1 c2 s2 c3 s3 :
    Execute rt arg c (if is_first then s else put " " s) = (Returned object, c1, s1) ->
    print_object rt object c1 s1 = (Returned tt, c2, s2) ->
    prints_in_order rt false rest c2 s2 c3 s3 ->
    prints_in_order rt is_first (arg :: rest) c s c3 s3.

(** The state in which the argument after [pre] is run: the space is there
    unless that argument is the first of the print. *)
Definition before_next (is_first : bool) (pre : list Statement) (s : Store) : Store :=
  match pre with
  | [] => if is_first then s else put " " s
  | _ :: _ => put " " s
  end.

(** What a Comparison does once both operands have returned [l] and [r],
    the second of them in closure [c2] and store [s2]. *)
Definition compared (comparator : Comparator) (l r : ObjectHolder)
           (c2 : Closure) (s2 : Store) : Completion ObjectHolder * Closure * Store :=
  match comparator l r s2 with
  | (Returned result, s3) => (Returned (runtime.Own (runtime.Bool result)), c2, s3)
  | (Raised e, s3) => (Raised e, c2, s3)
  | (Undefined, s3) => (Undefined, c2, s3)
  end.

(** ** Programs of the examples *)

(** A class without methods, and a class whose method [make] returns a new
    instance of it:
<<
      class A:
      class Factory:
        def make(self):
          return A()
>> *)
Definition class_A : model.Class :=
  {| model.class_name := "A"; model.methods := []; model.parent := None |}.

Definition class_Factory : model.Class :=
  {| model.class_name := "Factory";
     model.methods :=
       [ {| model.name := "make";
            model.formal_params := [];
            model.body :=
              MethodBody
                (Compound
                   [Return (NewInstance {| runtime.cls := 1%N; runtime.addr := 10%N |} [])])
         |} ];
     model.parent := None |}.

Definition factory_classes : model.Classes :=
  {[ 1%N := class_A; 2%N := class_Factory ]}.

(**
<<
      f = Factory()
      a = f.make()
      a.x = 1
      b = f.make()
      print b.x
>> *)
Definition factory_program : Statement :=
  Compound
    [ Assignment "f" (NewInstance {| runtime.cls := 2%N; runtime.addr := 20%N |} []);
      Assignment "a" (MethodCall (VariableValue "f" []) "make" []);
      FieldAssignment ("a", []) "x" (NumericConst 1);
      Assignment "b" (MethodCall (VariableValue "f" []) "make" []);
      Print [VariableValue "b" ["x"]] ].

(** A class with a constructor and a method, and a program using both:
<<
      class Point:
        def __init__(self, x, y):
          self.x = x
          self.y = y
        def show(self):
          print self.x, self.y
      p = Point(3, 4)
      p.show()
>> *)
Definition class_Point : model.Class :=
  {| model.class_name := "Point";
     model.methods :=
       [ {| model.name := "__init__";
            model.formal_params := ["x"; "y"];
            model.body :=
              MethodBody
                (Compound
                   [FieldAssignment ("self", []) "x" (VariableValue "x" []);
                    FieldAssignment ("self", []) "y" (VariableValue "y" [])]) |};
         {| model.name := "show";
            model.formal_params := [];
            model.body :=
              MethodBody
                (Compound
                   [Print [VariableValue "self" ["x"]; VariableValue "self" ["y"]]]) |} ];
     model.parent := None |}.

Definition point_classes : model.Classes := {[ 1%N := class_Point ]}.

Definition point_program : Statement :=
  Compound
    [ ClassDefinition (runtime.Share (runtime.Class 1%N));
      Assignment "p"
        (NewInstance {| runtime.cls := 1%N; runtime.addr := 10%N |}
                     [NumericConst 3; NumericConst 4]);
      MethodCall (VariableValue "p" []) "show" [] ].

(** A class that overrides one method of its parent and inherits another:
<<
      class A:
        def greet(self): print "A"
        def twice(self, n): return n + n
      class B(A):
        def greet(self): print "B"
      b = B()
      b.greet()
      print b.twice(21)
>> *)
Definition class_Parent : model.Class :=
  {| model.class_name := "A";
     model.methods :=
       [ {| model.name := "greet";
            model.formal_params := [];
            model.body := MethodBody (Compound [Print [StringConst "A"]]) |};
         {| model.name := "twice";
            model.formal_params := ["n"];
            model.body :=
              MethodBody
                (Compound
                   [Return (Add (VariableValue "n" []) (VariableValue "n" []))]) |} ];
     model.parent := None |}.

Definition class_Child : model.Class :=
  {| model.class_name := "B";
     model.methods :=
       [ {| model.name := "greet";
            model.formal_params := [];
            model.body := MethodBody (Compound [Print [StringConst "B"]]) |} ];
     model.parent := Some 1%N |}.

Definition family_classes : model.Classes :=
  {[ 1%N := class_Parent; 2%N := class_Child ]}.

Definition family_program : Statement :=
  Compound
    [ Assignment "b" (NewInstance {| runtime.cls := 2%N; runtime.addr := 10%N |} []);
      MethodCall (VariableValue "b" []) "greet" [];
      Print [MethodCall (VariableValue "b" []) "twice" [NumericConst 21]] ].

(** * Properties *)

(** ** The interpreter on whole programs *)

Example arithmetic_and_print :
  let '(r, c, s) :=
    Execute plain_runtime
      (Compound
         [Assignment "x" (NumericConst 2);
          Assignment "y" (NumericConst 3);
          Print [Add (VariableValue "x" [])
                     (Mult (VariableValue "y" []) (NumericConst 4))]])
      ∅ fresh_store in
  r = Returned runtime.None /\ out s = "14" +:+ endl.
Proof. vm_compute. split; reflexivity. Qed.

Example point_program_output :
  let '(r, c, s) :=
    Execute (model.runtime_of point_classes 1) point_program ∅ fresh_store in
  r = Returned runtime.None
  /\ c !! "Point" = Some (runtime.Share (runtime.Class 1%N))
  /\ Fields s 10%N !! "y" = Some (runtime.Share (runtime.Number 4))
  /\ out s = "3 4" +:+ endl.
Proof. vm_compute. repeat split. Qed.

Example family_program_output :
  let '(r, c, s) :=
    Execute (model.runtime_of family_classes 1) family_program ∅ fresh_store in
  r = Returned runtime.None /\ out s = "B" +:+ endl +:+ "42" +:+ endl.
Proof. vm_compute. split; reflexivity. Qed.

(** A call nested deeper than the fuel has no result; more fuel does not
    change a result once there is one. *)
Example family_program_fuel :
  fst (fst (Execute (model.runtime_of family_classes 0) family_program ∅ fresh_store))
    = Undefined
  /\ Execute (model.runtime_of family_classes 5) family_program ∅ fresh_store
    = Execute (model.runtime_of family_classes 1) family_program ∅ fresh_store.
Proof. vm_compute. split; reflexivity. Qed.

(** ** Machine arithmetic *)

Lemma wrap_int_id (z : Z) : in_int z -> wrap_int z = z.
Proof.
  unfold in_int, INT_MIN, INT_MAX, wrap_int. intros Hz.
  rewrite Z.mod_small; lia.
Qed.

Lemma wrap_int_range (z : Z) : in_int (wrap_int z).
Proof.
  unfold in_int, INT_MIN, INT_MAX, wrap_int.
  pose proof (Z.mod_pos_bound (z + 2 ^ 31) (2 ^ 32)). lia.
Qed.

(** The quotient of two ints is an int, but for INT_MIN / -1. *)
Lemma quot_in_int (a b : Z) :
  in_int a -> in_int b -> b <> 0 -> ~ (a = INT_MIN /\ b = -1) ->
  in_int (Z.quot a b).
Proof.
  unfold in_int, INT_MIN, INT_MAX. intros Ha Hb Hb0 Hover.
  destruct (Z.eq_dec b (-1)) as [-> | Hb1].
  - assert (a <> - 2 ^ 31) by (intros ->; apply Hover; split; reflexivity).
    replace (-1) with (- (1)) by reflexivity.
    rewrite Z.quot_opp_r, Z.quot_1_r by lia. lia.
  - assert (Habs : Z.abs (Z.quot a b) <= Z.abs a).
    { rewrite <- Z.quot_abs by lia.
      destruct (Z.eq_dec (Z.abs a) 0) as [-> | Hne]; [rewrite Z.quot_0_l; lia |].
      destruct (Z.eq_dec (Z.abs b) 1) as [-> | Hb2]; [rewrite Z.quot_1_r; lia |].
      apply Z.lt_le_incl, Z.quot_lt; lia. }
    destruct (Z.eq_dec a (- 2 ^ 31)) as [-> | Hmin]; [| lia].
    destruct (Z.eq_dec b 1) as [-> | Hb2]; [rewrite Z.quot_1_r; lia |].
    assert (Hlt : Z.abs (Z.quot (- 2 ^ 31) b) < Z.abs (- 2 ^ 31)).
    { rewrite <- Z.quot_abs by lia. apply Z.quot_lt; lia. }
    lia.
Qed.

(** ** Reading handles *)

Lemma number_operands_Some (l r : ObjectHolder) (a b : Z) :
  TryAs_Number l = Some a -> TryAs_Number r = Some b ->
  number_operands l r = Some (a, b).
Proof. unfold number_operands. intros -> ->. reflexivity. Qed.

Lemma number_operands_None (l r : ObjectHolder) :
  number_operands l r = None <-> TryAs_Number l = None \/ TryAs_Number r = None.
Proof.
  unfold number_operands.
  destruct (TryAs_Number l), (TryAs_Number r); split; intros H;
    try discriminate; auto; destruct H; discriminate.
Qed.

(** ** Arithmetic nodes *)

Section Arithmetic.

Variable rt : Runtime.

(** Both operands are run, the left one first; the operation is applied
    to their handles in the state the right one left. *)
Lemma Mult_Execute_numbers lhs rhs c s l c1 s1 r c2 s2 a b :
  Execute rt lhs c s = (Returned l, c1, s1) ->
  Execute rt rhs c1 s1 = (Returned r, c2, s2) ->
  TryAs_Number l = Some a -> TryAs_Number r = Some b ->
  Execute rt (Mult lhs rhs) c s =
    (Returned (runtime.Own (runtime.Number (wrap_int (a * b)))), c2, s2).
Proof.
  intros Hl Hr Ha Hb. simpl. unfold bind. rewrite Hl, Hr.
  rewrite (number_operands_Some _ _ _ _ Ha Hb). reflexivity.
Qed.

Lemma Div_Execute_operands lhs rhs c s l c1 s1 r c2 s2 :
  Execute rt lhs c s = (Returned l, c1, s1) ->
  Execute rt rhs c1 s1 = (Returned r, c2, s2) ->
  Execute rt (Div lhs rhs) c s =
    match number_operands l r with
    | Some (a, b) =>
        if decide (b ≠ 0)
        then
          if decide (a = INT_MIN /\ b = -1)
          then (Undefined, c2, s2)
          else (Returned (runtime.Own (runtime.Number (wrap_int (Z.quot a b)))), c2, s2)
        else (Raised (runtime_error "Сannot be divided by 0 "), c2, s2)
    | None => (Raised (runtime_error "Failed to Div::Execute "), c2, s2)
    end.
Proof.
  intros Hl Hr. simpl. unfold bind. rewrite Hl, Hr.
  destruct (number_operands l r) as [[a b] |]; [| reflexivity].
  destruct (decide (b ≠ 0)); [| reflexivity].
  destruct (decide (a = INT_MIN /\ b = -1)); reflexivity.
Qed.

End Arithmetic.

(** C4 as stated fails at one pair of Numbers: INT_MIN / -1 has a nonzero
    divisor, but its quotient 2^31 is no int; the division overflows, and
    what comes out is neither a Number nor a runtime error. *)
Lemma Div_overflow_undefined :
  Execute plain_runtime
    (Div (NumericConst (-2147483648)) (NumericConst (-1))) ∅ fresh_store
    = (Undefined, ∅, fresh_store)
  /\ TryAs_Number (runtime.Share (runtime.Number (-2147483648))) = Some INT_MIN
  /\ TryAs_Number (runtime.Share (runtime.Number (-1))) = Some (-1)
  /\ -1 <> 0.
Proof. repeat split. lia. Qed.

(** C4 (amended): Div runs its operands left then right.  When both yield
    Numbers, the right one is not zero and the pair is not INT_MIN, -1, the
    result is a newly owned Number holding the truncating quotient (exactly
    [Z.quot] on ints).  A runtime error is raised exactly when an operand is
    not a Number or the right operand is zero, and nothing else is ever
    raised.  For INT_MIN / -1 the division has no defined result. *)
Theorem Div_Execute_spec (rt : Runtime) lhs rhs c s l c1 s1 r c2 s2 :
  Execute rt lhs c s = (Returned l, c1, s1) ->
  Execute rt rhs c1 s1 = (Returned r, c2, s2) ->
  (forall a b, TryAs_Number l = Some a -> TryAs_Number r = Some b -> b <> 0 ->
     ~ (a = INT_MIN /\ b = -1) ->
     Execute rt (Div lhs rhs) c s =
       (Returned (runtime.Own (runtime.Number (wrap_int (Z.quot a b)))), c2, s2) /\
     (in_int a -> in_int b -> wrap_int (Z.quot a b) = Z.quot a b)) /\
  ((exists what, Execute rt (Div lhs rhs) c s = (Raised (runtime_error what), c2, s2)) <->
   (TryAs_Number l = None \/ TryAs_Number r = None \/ TryAs_Number r = Some 0)) /\
  (forall e c' s', Execute rt (Div lhs rhs) c s = (Raised e, c', s') ->
     exists what, e = runtime_error what) /\
  (TryAs_Number l = Some INT_MIN -> TryAs_Number r = Some (-1) ->
     Execute rt (Div lhs rhs) c s = (Undefined, c2, s2)).
Proof.
  intros Hl Hr. rewrite (Div_Execute_operands rt _ _ _ _ _ _ _ _ _ _ Hl Hr).
  split; [| split; [| split]].
  - intros a b Ha Hb Hb0 Hover. rewrite (number_operands_Some _ _ _ _ Ha Hb).
    destruct (decide (b ≠ 0)) as [_ | Hn]; [| contradiction].
    destruct (decide (a = INT_MIN /\ b = -1)) as [Ho | _]; [contradiction |].
    split; [reflexivity |].
    intros Hia Hib. apply wrap_int_id, quot_in_int; assumption.
  - destruct (number_operands l r) as [[a b] |] eqn:Hops.
    + assert (Hab : TryAs_Number l = Some a /\ TryAs_Number r = Some b).
      { unfold number_operands in Hops.
        destruct (TryAs_Number l), (TryAs_Number r); try discriminate.
        injection Hops as -> ->. split; reflexivity. }
      destruct Hab as [Ha Hb]. rewrite Ha, Hb.
      destruct (decide (b ≠ 0)) as [Hb0 | Hb0].
      * split.
        -- intros [what Hwhat].
           destruct (decide (a = INT_MIN /\ b = -1)); discriminate.
        -- intros [H | [H | H]]; try discriminate.
           injection H as ->. contradiction.
      * split.
        -- intros _. right. right. f_equal.
           destruct (Z.eq_dec b 0) as [-> | Hne]; [reflexivity | contradiction].
        -- intros _. eexists. reflexivity.
    + apply number_operands_None in Hops. split.
      * intros _. destruct Hops; auto.
      * intros _. eexists. reflexivity.
  - intros e c' s'. destruct (number_operands l r) as [[a b] |].
    + destruct (decide (b ≠ 0)); intros H.
      * destruct (decide (a = INT_MIN /\ b = -1)); discriminate.
      * injection H as <- _ _. eexists. reflexivity.
    + intros H. injection H as <- _ _. eexists. reflexivity.
  - intros Ha Hb. rewrite (number_operands_Some _ _ _ _ Ha Hb).
    destruct (decide (-1 ≠ 0)) as [_ | Hn]; [| destruct Hn; lia].
    destruct (decide (INT_MIN = INT_MIN /\ -1 = -1)) as [_ | Hn];
      [reflexivity | destruct Hn; split; reflexivity].
Qed.

Lemma Div_Execute_spec_witness :
  Execute plain_runtime (Div (NumericConst (-7)) (NumericConst 2)) ∅ fresh_store =
    (Returned (runtime.Own (runtime.Number (-3))), ∅, fresh_store).
Proof.
  pose proof (Div_Execute_spec plain_runtime (NumericConst (-7)) (NumericConst 2)
                ∅ fresh_store _ _ _ _ _ _ eq_refl eq_refl) as [Hquot _].
  destruct (Hquot (-7) 2 eq_refl eq_refl) as [Hdiv _];
    [lia | unfold INT_MIN; lia |].
  exact Hdiv.
Defined.

(** C9 as stated fails on machine integers: 65536 * 65536 wraps around to 0,
    so dividing the product by 65536 gives 0, not 65536. *)
Lemma Div_Mult_overflow :
  Execute plain_runtime
    (Div (Mult (NumericConst 65536) (NumericConst 65536)) (NumericConst 65536))
    ∅ fresh_store
  = (Returned (runtime.Own (runtime.Number 0)), ∅, fresh_store)
  /\ in_int 65536
  /\ (0 <> 65536).
Proof. split; [reflexivity | split; [unfold in_int, INT_MIN, INT_MAX; lia | lia]]. Qed.

(** C9 (amended): for ints n and m, m not zero, whose product is an int,
    Div(Mult(n, m), m) yields a Number equal to n. *)
Theorem Div_Mult_cancel (rt : Runtime) (n m : Z) c s :
  in_int n -> in_int m -> m <> 0 -> in_int (n * m) ->
  Execute rt (Div (Mult (NumericConst n) (NumericConst m)) (NumericConst m)) c s
  = (Returned (runtime.Own (runtime.Number n)), c, s).
Proof.
  intros Hn Hm Hm0 Hnm.
  rewrite (Div_Execute_operands rt _ _ c s
             (runtime.Own (runtime.Number (wrap_int (n * m)))) c s
             (runtime.Share (runtime.Number m)) c s).
  - rewrite (number_operands_Some _ _ (wrap_int (n * m)) m) by reflexivity.
    destruct (decide (m ≠ 0)) as [_ | Hz]; [| contradiction].
    rewrite (wrap_int_id (n * m)) by assumption.
    destruct (decide (n * m = INT_MIN /\ m = -1)) as [[Hmin ->] | _].
    { unfold in_int, INT_MIN, INT_MAX in *. lia. }
    rewrite Z.quot_mul by assumption.
    rewrite (wrap_int_id n) by assumption. reflexivity.
  - apply (Mult_Execute_numbers rt _ _ c s (runtime.Share (runtime.Number n)) c s
             (runtime.Share (runtime.Number m)) c s n m); reflexivity.
  - reflexivity.
Qed.

Lemma Div_Mult_cancel_witness :
  Execute plain_runtime
    (Div (Mult (NumericConst (-6)) (NumericConst 7)) (NumericConst 7)) ∅ fresh_store
  = (Returned (runtime.Own (runtime.Number (-6))), ∅, fresh_store).
Proof.
  apply (Div_Mult_cancel plain_runtime (-6) 7 ∅ fresh_store);
    unfold in_int, INT_MIN, INT_MAX; lia.
Defined.

(** ** Boolean connectives *)

(** X27: Or and And short-circuit, and their result is a Bool of the truth
    found, built with [ObjectHolder::Own].  With a truthy left operand Or
    yields Bool(true) in the very state the left operand left, whatever the
    right operand is; otherwise the right operand is run and its truth
    decides.  And runs the right operand only after a truthy left one; its
    result is Bool(true) only when both are truthy.  (Which allocation the
    handle refers to is not part of this: handles are told apart by how they
    were made and by what they hold.) *)
Theorem Or_And_short_circuit (rt : Runtime) lhs rhs c s l c1 s1 :
  Execute rt lhs c s = (Returned l, c1, s1) ->
  (IsTrue rt l = true ->
     Execute rt (Or lhs rhs) c s =
       (Returned (runtime.Own (runtime.Bool true)), c1, s1)) /\
  (IsTrue rt l = false -> forall r c2 s2,
     Execute rt rhs c1 s1 = (Returned r, c2, s2) ->
     Execute rt (Or lhs rhs) c s =
       (Returned (runtime.Own (runtime.Bool (IsTrue rt r))), c2, s2)) /\
  (IsTrue rt l = false ->
     Execute rt (And lhs rhs) c s =
       (Returned (runtime.Own (runtime.Bool false)), c1, s1)) /\
  (IsTrue rt l = true -> forall r c2 s2,
     Execute rt rhs c1 s1 = (Returned r, c2, s2) ->
     Execute rt (And lhs rhs) c s =
       (Returned (runtime.Own (runtime.Bool (IsTrue rt r))), c2, s2)).
Proof.
  intros Hl. repeat split.
  - intros Ht. simpl. unfold bind. rewrite Hl, Ht. reflexivity.
  - intros Hf r c2 s2 Hr. simpl. unfold bind. rewrite Hl, Hf, Hr.
    destruct (IsTrue rt r); reflexivity.
  - intros Hf. simpl. unfold bind. rewrite Hl, Hf. reflexivity.
  - intros Ht r c2 s2 Hr. simpl. unfold bind. rewrite Hl, Ht, Hr.
    destruct (IsTrue rt r); reflexivity.
Qed.

(** A print in the right operand tells whether it ran: nothing is written
    after a truthy left operand of Or, and the Number 5 itself is not what
    comes back. *)
Lemma Or_And_short_circuit_witness :
  Execute plain_runtime (Or (NumericConst 5) (Print [StringConst "!"])) ∅ fresh_store
  = (Returned (runtime.Own (runtime.Bool true)), ∅, fresh_store).
Proof.
  pose proof (Or_And_short_circuit plain_runtime (NumericConst 5)
                (Print [StringConst "!"]) ∅ fresh_store _ _ _ eq_refl)
    as [Hor _].
  exact (Hor eq_refl).
Defined.

Example And_runs_right_operand :
  let '(r, _, s) :=
    Execute plain_runtime (And (NumericConst 5) (Print [StringConst "!"])) ∅ fresh_store in
  r = Returned (runtime.Own (runtime.Bool false)) /\ out s = "!" +:+ endl.
Proof. split; reflexivity. Qed.

(** ** Method bodies and return *)

Section MethodBody.

Variable rt : Runtime.

(** [Return] throws the handle its statement yields. *)
Lemma Return_Execute statement c s v c' s' :
  Execute rt statement c s = (Returned v, c', s') ->
  Execute rt (Return statement) c s = (Raised (ThrownObject v), c', s').
Proof. intros H. simpl. unfold bind, raise. rewrite H. reflexivity. Qed.

(** A thrown handle stops at the method body, which returns it. *)
Lemma MethodBody_catches_Return body c s obj c' s' :
  Execute rt body c s = (Raised (ThrownObject obj), c', s') ->
  Execute rt (MethodBody body) c s = (Returned obj, c', s').
Proof. intros H. simpl. unfold MethodBody_try. rewrite H. reflexivity. Qed.

(** A body that completes hands its own result to the method body. *)
Lemma MethodBody_passes_result body c s v c' s' :
  Execute rt body c s = (Returned v, c', s') ->
  Execute rt (MethodBody body) c s = (Returned v, c', s').
Proof. intros H. simpl. unfold MethodBody_try. rewrite H. reflexivity. Qed.

(** Anything else thrown is caught by [catch (...)] and replaced. *)
Lemma MethodBody_catch_all body c s e c' s' :
  Execute rt body c s = (Raised e, c', s') ->
  (forall obj, e <> ThrownObject obj) ->
  Execute rt (MethodBody body) c s =
    (Raised (runtime_error "MethodBody::Catched undefined object"), c', s').
Proof.
  intros H He. simpl. unfold MethodBody_try. rewrite H.
  destruct e as [obj | what |]; [destruct (He obj eq_refl) | reflexivity ..].
Qed.

End MethodBody.

(** A return deep inside a conditional inside a compound statement leaves
    the whole body: the statements after it do not run. *)
Example Return_unwinds :
  Execute plain_runtime
    (MethodBody
       (Compound
          [IfElse (BoolConst true)
                  (Compound [Return (NumericConst 7); Print [StringConst "skipped"]])
                  None;
           Print [StringConst "skipped too"]]))
    ∅ fresh_store
  = (Returned (runtime.Share (runtime.Number 7)), ∅, fresh_store).
Proof. reflexivity. Qed.

(** C1: the header of MethodBody promises None when the body runs to its end
    without a return, but [MethodBody::Execute] returns whatever the body
    returned: a method body made of the constant 5 yields 5. *)
Theorem MethodBody_returns_body_value (rt : Runtime) c s :
  Execute rt (MethodBody (NumericConst 5)) c s
    = (Returned (runtime.Share (runtime.Number 5)), c, s)
  /\ runtime.Share (runtime.Number 5) <> runtime.None.
Proof. split; [reflexivity | discriminate]. Qed.




(** ** Variables and attribute chains *)

Section VariableValue.

Variable rt : Runtime.

(** A name missing from the closure is a runtime error. *)
Lemma VariableValue_undefined var_name dotted_ids (c : Closure) s :
  c !! var_name = None ->
  Execute rt (VariableValue var_name dotted_ids) c s =
    (Raised (runtime_error "Failed to VariableValue::Execute!"), c, s).
Proof. intros H. simpl. unfold VariableValue_Execute. rewrite H. reflexivity. Qed.

(** One hop through an instance reads the field from its field map. *)
Lemma VariableValue_loop_instance current i id rest next c s :
  TryAs_ClassInstance current = Some i ->
  Fields s (runtime.addr i) !! id = Some next ->
  VariableValue_loop current (id :: rest) c s = VariableValue_loop next rest c s.
Proof.
  intros Hi Hf. simpl. rewrite Hi. unfold bind, fields_at. rewrite Hf. reflexivity.
Qed.

(** The loop has no branch for a value that is not an instance: the hop is
    dropped and the value stays current, to the end of the chain. *)
Lemma VariableValue_loop_non_instance current dotted_ids c s :
  TryAs_ClassInstance current = None ->
  VariableValue_loop current dotted_ids c s = (Returned current, c, s).
Proof.
  intros Hn. induction dotted_ids as [| id rest IH]; simpl.
  - reflexivity.
  - rewrite Hn. exact IH.
Qed.

End VariableValue.

(** [FieldAssignment::Execute] on the same kind of target does throw. *)
Example FieldAssignment_non_instance :
  Execute plain_runtime (FieldAssignment ("x", []) "foo" (NumericConst 1))
    {[ "x" := runtime.Own (runtime.Number 5) ]} fresh_store
  = (Raised (runtime_error "Failed to FieldAssignment::Execute "),
     {[ "x" := runtime.Own (runtime.Number 5) ]}, fresh_store).
Proof. reflexivity. Qed.

(** C2: attribute access on a value that is not a class instance should be a
    runtime error, but [VariableValue::Execute] returns normally: with x
    bound to the Number 5, x.foo evaluates to 5. *)
Theorem VariableValue_skips_non_instance (rt : Runtime) s :
  Execute rt (VariableValue "x" ["foo"]) {[ "x" := runtime.Own (runtime.Number 5) ]} s
  = (Returned (runtime.Own (runtime.Number 5)),
     {[ "x" := runtime.Own (runtime.Number 5) ]}, s).
Proof.
  simpl. unfold VariableValue_Execute. rewrite lookup_singleton_eq.
  apply VariableValue_loop_non_instance. reflexivity.
Qed.

(** ** Arguments of a call *)

Lemma ExecuteArgs_in_order (rt : Runtime) args c s hs c' s' :
  args_in_order rt args c s hs c' s' ->
  forall method_args,
    ExecuteArgs (Execute rt) method_args args c s
    = (Returned (method_args ++ hs)%list, c', s').
Proof.
  induction 1 as [c s | arg rest c s h c1 s1 hs c2 s2 Harg _ IH]; intros method_args.
  - simpl. unfold ret. rewrite app_nil_r. reflexivity.
  - simpl. unfold bind. rewrite Harg. rewrite IH, <- app_assoc. reflexivity.
Qed.

(** An argument that fails ends the loop: the later ones are not run. *)
Lemma ExecuteArgs_raise (rt : Runtime) arg rest method_args c s e c' s' :
  Execute rt arg c s = (Raised e, c', s') ->
  ExecuteArgs (Execute rt) method_args (arg :: rest) c s = (Raised e, c', s').
Proof. intros H. simpl. unfold bind. rewrite H. reflexivity. Qed.

(** ** Method calls *)

(** C7: MethodCall runs its object first.  When the value is a class
    instance the arguments are run in order and the method is called on the
    instance with their handles; the result of the call is the result of the
    node.  When the value is not an instance the node returns the empty
    handle, without running the arguments and without an error. *)
Theorem MethodCall_Execute_spec (rt : Runtime) object method args c s h c1 s1 :
  Execute rt object c s = (Returned h, c1, s1) ->
  (TryAs_ClassInstance h = None ->
     Execute rt (MethodCall object method args) c s = (Returned runtime.None, c1, s1)) /\
  (forall instance hs c2 s2,
     TryAs_ClassInstance h = Some instance ->
     args_in_order rt args c1 s1 hs c2 s2 ->
     Execute rt (MethodCall object method args) c s =
       (fst (Call rt instance method hs s2), c2, snd (Call rt instance method hs s2))).
Proof.
  intros Hobj. split.
  - intros Hn. simpl. unfold bind. rewrite Hobj, Hn. reflexivity.
  - intros instance hs c2 s2 Hi Hargs. simpl. unfold bind. rewrite Hobj, Hi.
    rewrite (ExecuteArgs_in_order rt _ _ _ _ _ _ Hargs []). simpl.
    unfold lift. destruct (Call rt instance method hs s2). reflexivity.
Qed.

Lemma MethodCall_Execute_spec_witness :
  Execute (model.runtime_of family_classes 1)
    (MethodCall (VariableValue "b" []) "twice" [NumericConst 21])
    {[ "b" := runtime.Share (runtime.Instance {| runtime.cls := 2%N; runtime.addr := 10%N |}) ]}
    fresh_store
  = (Returned (runtime.Own (runtime.Number 42)),
     {[ "b" := runtime.Share (runtime.Instance {| runtime.cls := 2%N; runtime.addr := 10%N |}) ]},
     fresh_store)
  /\ Execute plain_runtime
       (MethodCall (NumericConst 5) "show" [Print [StringConst "!"]]) ∅ fresh_store
     = (Returned runtime.None, ∅, fresh_store).
Proof.
  split.
  - set (c := {[ "b" := runtime.Share
                         (runtime.Instance {| runtime.cls := 2%N; runtime.addr := 10%N |}) ]}
              : Closure).
    assert (Hobj : Execute (model.runtime_of family_classes 1) (VariableValue "b" [])
                     c fresh_store
                   = (Returned (runtime.Share (runtime.Instance
                        {| runtime.cls := 2%N; runtime.addr := 10%N |})), c, fresh_store))
      by reflexivity.
    destruct (MethodCall_Execute_spec _ _ "twice" [NumericConst 21] _ _ _ _ _ Hobj)
      as [_ Hcall].
    rewrite (Hcall {| runtime.cls := 2%N; runtime.addr := 10%N |}
                   [runtime.Share (runtime.Number 21)] c fresh_store eq_refl).
    + reflexivity.
    + eapply args_next; [reflexivity | apply args_done].
  - assert (Hobj : Execute plain_runtime (NumericConst 5) ∅ fresh_store
                   = (Returned (runtime.Share (runtime.Number 5)), ∅, fresh_store))
      by reflexivity.
    destruct (MethodCall_Execute_spec _ _ "show" [Print [StringConst "!"]] _ _ _ _ _ Hobj)
      as [Hnone _].
    exact (Hnone eq_refl).
Defined.

(** ** Instance creation *)

Section NewInstance.

Variable rt : Runtime.

(** Without a matching [__init__] the node runs no argument and calls
    nothing; it hands out its own instance and leaves the store as it is. *)
Lemma NewInstance_Execute_no_init class_instance args c s :
  HasMethod rt (runtime.cls class_instance) INIT_METHOD (length args) = false ->
  Execute rt (NewInstance class_instance args) c s =
    (Returned (runtime.Share (runtime.Instance class_instance)), c, s).
Proof. intros H. simpl. rewrite H. reflexivity. Qed.

(** With a matching [__init__] the arguments are run in order and
    [__init__] is called on the node's instance; its result is dropped. *)
Lemma NewInstance_Execute_init class_instance args c s hs c' s' v s'' :
  HasMethod rt (runtime.cls class_instance) INIT_METHOD (length args) = true ->
  args_in_order rt args c s hs c' s' ->
  Call rt class_instance INIT_METHOD hs s' = (Returned v, s'') ->
  Execute rt (NewInstance class_instance args) c s =
    (Returned (runtime.Share (runtime.Instance class_instance)), c', s'').
Proof.
  intros H Hargs Hcall. simpl. rewrite H. unfold bind.
  rewrite (ExecuteArgs_in_order rt _ _ _ _ _ _ Hargs []). simpl.
  unfold lift. rewrite Hcall. reflexivity.
Qed.

End NewInstance.

(** C6: creating an instance should give a new object each time the node
    runs, but the node hands out the one instance it holds as a member: the
    second call of [make] returns the object of the first call, so the field
    set on [a] is printed through [b]. *)
Theorem NewInstance_shares_one_instance :
  let '(r, c, s) :=
    Execute (model.runtime_of factory_classes 1) factory_program ∅ fresh_store in
  r = Returned runtime.None
  /\ c !! "a" = Some (runtime.Share (runtime.Instance {| runtime.cls := 1%N; runtime.addr := 10%N |}))
  /\ c !! "b" = c !! "a"
  /\ out s = "1" +:+ endl.
Proof. vm_compute. repeat split. Qed.

(** ** Print *)

Lemma append_assoc (a b c : string) : (a +:+ b) +:+ c = a +:+ (b +:+ c).
Proof.
  induction a as [| x a IH]; [reflexivity |].
  change (String x ((a +:+ b) +:+ c) = String x (a +:+ (b +:+ c))).
  rewrite IH. reflexivity.
Qed.

Lemma append_nil_r (a : string) : a +:+ "" = a.
Proof.
  induction a as [| x a IH]; [reflexivity |].
  change (String x (a +:+ "") = String x a). rewrite IH. reflexivity.
Qed.



Section Print.

Variable rt : Runtime.




End Print.




(** ** Assignment and the scope *)

Section KeepsScope.

Variable rt : Runtime.

Lemma keeps_ret {A} (a : A) : keeps_scope (ret a).
Proof. intros c s. reflexivity. Qed.

Lemma keeps_raise {A} (e : Exception) : keeps_scope (@raise A e).
Proof. intros c s. reflexivity. Qed.

Lemma keeps_undefined {A} : keeps_scope (@undefined A).
Proof. intros c s. reflexivity. Qed.

Lemma keeps_lift {A} (f : Store -> Completion A * Store) : keeps_scope (lift f).
Proof. intros c s. unfold lift. destruct (f s). reflexivity. Qed.

Lemma keeps_write text : keeps_scope (write text).
Proof. intros c s. reflexivity. Qed.

Lemma keeps_fields_at a name : keeps_scope (fields_at a name).
Proof. intros c s. unfold fields_at. destruct (Fields s a !! name); reflexivity. Qed.

Lemma keeps_fields_set a name h : keeps_scope (fields_set a name h).
Proof. intros c s. reflexivity. Qed.

Lemma keeps_bind {A B} (m : M A) (k : A -> M B) :
  keeps_scope m -> (forall a, keeps_scope (k a)) -> keeps_scope (bind m k).
Proof.
  intros Hm Hk c s. unfold bind. specialize (Hm c s).
  destruct (m c s) as [[[a | e |] c1] s1]; simpl in Hm; subst c1;
    [apply Hk | reflexivity | reflexivity].
Qed.

Lemma keeps_VariableValue_loop current dotted_ids :
  keeps_scope (VariableValue_loop current dotted_ids).
Proof.
  revert current. induction dotted_ids as [| id rest IH]; intros current; simpl.
  - apply keeps_ret.
  - destruct (TryAs_ClassInstance current); [| apply IH].
    apply keeps_bind; [apply keeps_fields_at | intros next; apply IH].
Qed.

Lemma keeps_VariableValue_Execute var_name dotted_ids :
  keeps_scope (VariableValue_Execute var_name dotted_ids).
Proof.
  intros c s. unfold VariableValue_Execute.
  destruct (c !! var_name); [apply keeps_VariableValue_loop | reflexivity].
Qed.

Lemma keeps_print_object object : keeps_scope (print_object rt object).
Proof.
  unfold print_object. destruct (runtime.Get object); [| apply keeps_write].
  apply keeps_bind; [apply keeps_lift | intros text; apply keeps_write].
Qed.

Lemma keeps_Add_values l r : keeps_scope (Add_values l r).
Proof.
  unfold Add_values.
  destruct (TryAs_String l), (TryAs_String r), (TryAs_Number l), (TryAs_Number r);
    first [apply keeps_ret | apply keeps_raise].
Qed.

Lemma keeps_MethodBody_try body : keeps_scope body -> keeps_scope (MethodBody_try body).
Proof.
  intros Hb c s. unfold MethodBody_try. specialize (Hb c s).
  destruct (body c s) as [[[v | [obj | what |] |] c1] s1]; exact Hb.
Qed.

Section Loops.

Variable exec : Statement -> M ObjectHolder.

Lemma keeps_ExecuteArgs args :
  Forall (fun arg => keeps_scope (exec arg)) args ->
  forall method_args, keeps_scope (ExecuteArgs exec method_args args).
Proof.
  induction 1 as [| arg rest Harg _ IH]; intros method_args; simpl.
  - apply keeps_ret.
  - apply keeps_bind; [exact Harg | intros h; apply IH].
Qed.

Lemma keeps_Print_loop args :
  Forall (fun arg => keeps_scope (exec arg)) args ->
  forall is_first, keeps_scope (Print_loop rt exec is_first args).
Proof.
  induction 1 as [| arg rest Harg _ IH]; intros is_first; simpl.
  - apply keeps_ret.
  - apply keeps_bind.
    { destruct (negb is_first); [apply keeps_write | apply keeps_ret]. }
    intros _. apply keeps_bind; [exact Harg |].
    intros object. apply keeps_bind; [apply keeps_print_object |].
    intros _. apply IH.
Qed.

Lemma keeps_Compound_loop args :
  Forall (fun arg => keeps_scope (exec arg)) args ->
  keeps_scope (Compound_loop exec args).
Proof.
  induction 1 as [| arg rest Harg _ IH]; simpl.
  - apply keeps_ret.
  - apply keeps_bind; [exact Harg | intros _; exact IH].
Qed.

End Loops.

Lemma Forall_writes_no_scope (args : list Statement) :
  Forall (fun arg => writes_no_scope arg = true -> keeps_scope (Execute rt arg)) args ->
  forallb writes_no_scope args = true ->
  Forall (fun arg => keeps_scope (Execute rt arg)) args.
Proof.
  induction 1 as [| arg rest Harg _ IH]; simpl; intros Hall; constructor.
  - apply Harg. destruct (writes_no_scope arg); [reflexivity | discriminate].
  - apply IH. destruct (writes_no_scope arg); [exact Hall | discriminate].
Qed.

(** Only [Assignment] and [ClassDefinition] write to the closure: a
    statement without them returns the closure as it got it, however it
    completes. *)
Lemma Execute_keeps_scope (stmt : Statement) :
  writes_no_scope stmt = true -> keeps_scope (Execute rt stmt).
Proof.
  induction stmt using Statement_nested_ind; simpl; intros Hw;
    repeat match type of Hw with
           | _ && _ = true => apply andb_prop in Hw; destruct Hw as [Hw ?]
           end;
    try discriminate;
    try (apply keeps_ret);
    repeat match goal with
           | IH : ?w = true -> keeps_scope _, H : ?w = true |- _ => specialize (IH H)
           end.
  - apply keeps_VariableValue_Execute.
  - destruct object as [var_name dotted_ids].
    apply keeps_bind; [apply keeps_VariableValue_Execute | intros object].
    destruct (TryAs_ClassInstance object); [| apply keeps_raise].
    apply keeps_bind; [assumption | intros value].
    apply keeps_bind; [apply keeps_fields_set | intros _; apply keeps_fields_at].
  - apply keeps_bind; [| intros _; apply keeps_bind;
                          [apply keeps_write | intros _; apply keeps_ret]].
    apply keeps_Print_loop, Forall_writes_no_scope; assumption.
  - apply keeps_bind; [assumption | intros current_object].
    destruct (TryAs_ClassInstance current_object); [| apply keeps_ret].
    apply keeps_bind; [| intros method_args; apply keeps_lift].
    apply keeps_ExecuteArgs, Forall_writes_no_scope; assumption.
  - destruct (HasMethod rt (runtime.cls i) INIT_METHOD (length args));
      [| apply keeps_ret].
    apply keeps_bind.
    { apply keeps_ExecuteArgs, Forall_writes_no_scope; assumption. }
    intros tmp_args. apply keeps_bind; [apply keeps_lift | intros _; apply keeps_ret].
  - apply keeps_bind; [assumption | intros executed_arg].
    destruct (runtime.Get executed_arg); [| apply keeps_ret].
    apply keeps_bind; [apply keeps_lift | intros result_str; apply keeps_ret].
  - apply keeps_bind; [assumption | intros l].
    apply keeps_bind; [assumption | intros r].
    destruct (TryAs_ClassInstance l) as [class_ptr |]; [| apply keeps_Add_values].
    destruct (HasMethod rt (runtime.cls class_ptr) ADD_METHOD 1);
      [apply keeps_lift | apply keeps_Add_values].
  - apply keeps_bind; [assumption | intros l].
    apply keeps_bind; [assumption | intros r].
    destruct (number_operands l r) as [[a b] |]; [apply keeps_ret | apply keeps_raise].
  - apply keeps_bind; [assumption | intros l].
    apply keeps_bind; [assumption | intros r].
    destruct (number_operands l r) as [[a b] |]; [apply keeps_ret | apply keeps_raise].
  - apply keeps_bind; [assumption | intros l].
    apply keeps_bind; [assumption | intros r].
    destruct (number_operands l r) as [[a b] |]; [| apply keeps_raise].
    destruct (decide (b ≠ 0)); [| apply keeps_raise].
    destruct (decide (a = INT_MIN /\ b = -1)); [apply keeps_undefined | apply keeps_ret].
  - apply keeps_bind; [assumption | intros l].
    destruct (IsTrue rt l); [apply keeps_ret |].
    apply keeps_bind; [assumption | intros r].
    destruct (IsTrue rt r); apply keeps_ret.
  - apply keeps_bind; [assumption | intros l].
    destruct (IsTrue rt l); [| apply keeps_ret].
    apply keeps_bind; [assumption | intros r].
    destruct (IsTrue rt r); apply keeps_ret.
  - apply keeps_bind; [assumption | intros a; apply keeps_ret].
  - apply keeps_bind; [| intros _; apply keeps_ret].
    apply keeps_Compound_loop, Forall_writes_no_scope; assumption.
  - apply keeps_MethodBody_try. assumption.
  - apply keeps_bind; [assumption | intros value; apply keeps_raise].
  - apply keeps_bind; [assumption | intros c].
    destruct (IsTrue rt c); [assumption |].
    destruct else_body as [else_ |]; [| apply keeps_ret].
    auto.
  - destruct (arguments_right_to_left rt).
    + apply keeps_bind; [assumption | intros r].
      apply keeps_bind; [assumption | intros l].
      apply keeps_bind; [apply keeps_lift | intros result; apply keeps_ret].
    + apply keeps_bind; [assumption | intros l].
      apply keeps_bind; [assumption | intros r].
      apply keeps_bind; [apply keeps_lift | intros result; apply keeps_ret].
Qed.

End KeepsScope.

(** C10 as stated fails: the right-hand side may itself assign before it
    fails.  Here x is bound to 0; the right-hand side rebinds x to 1 and
    then divides by zero; the error leaves x bound to 1. *)
Lemma Assignment_rhs_writes_scope :
  let '(r, c, _) :=
    Execute plain_runtime
      (Assignment "x" (Div (Assignment "x" (NumericConst 1)) (NumericConst 0)))
      {[ "x" := runtime.Share (runtime.Number 0) ]} fresh_store in
  r = Raised (runtime_error "Сannot be divided by 0 ")
  /\ c !! "x" = Some (runtime.Share (runtime.Number 1))
  /\ c <> {[ "x" := runtime.Share (runtime.Number 0) ]}.
Proof.
  vm_compute. split; [reflexivity | split; [reflexivity | discriminate]].
Qed.

(** C10 (amended): when the right-hand side fails, Assignment fails the same
    way and writes nothing itself: the scope is the one the right-hand side
    left.  That is the scope as it was, no binding for the name created or
    replaced, whenever the right-hand side holds no Assignment and no
    ClassDefinition node. *)
Theorem Assignment_error_leaves_scope (rt : Runtime) var rv c s e c' s' :
  Execute rt rv c s = (Raised e, c', s') ->
  Execute rt (Assignment var rv) c s = (Raised e, c', s') /\
  (writes_no_scope rv = true -> c' = c /\ c' !! var = c !! var).
Proof.
  intros Hrv. split.
  - simpl. unfold bind. rewrite Hrv. reflexivity.
  - intros Hw. pose proof (Execute_keeps_scope rt rv Hw c s) as Hk.
    rewrite Hrv in Hk. simpl in Hk. subst c'. split; reflexivity.
Qed.

Lemma Assignment_error_leaves_scope_witness :
  exists c' s',
    Execute plain_runtime
      (Assignment "x" (Div (VariableValue "x" []) (NumericConst 0)))
      {[ "x" := runtime.Share (runtime.Number 4) ]} fresh_store
    = (Raised (runtime_error "Сannot be divided by 0 "), c', s')
    /\ c' = {[ "x" := runtime.Share (runtime.Number 4) ]}.
Proof.
  assert (Hrv : Execute plain_runtime (Div (VariableValue "x" []) (NumericConst 0))
                  {[ "x" := runtime.Share (runtime.Number 4) ]} fresh_store
                = (Raised (runtime_error "Сannot be divided by 0 "),
                   {[ "x" := runtime.Share (runtime.Number 4) ]}, fresh_store))
    by reflexivity.
  destruct (Assignment_error_leaves_scope plain_runtime "x" _ _ _ _ _ _ Hrv)
    as [Hfail Hscope].
  eexists _, _. split; [exact Hfail | exact (proj1 (Hscope eq_refl))].
Defined.

(** * Further properties of the evaluator *)

(** ** Reading and writing variables *)

Section ReadOnly.

Variable rt : Runtime.

Lemma VariableValue_loop_read_only current dotted_ids :
  read_only (VariableValue_loop current dotted_ids).
Proof.
  revert current. induction dotted_ids as [| id rest IH]; intros current c s; simpl.
  - split; reflexivity.
  - destruct (TryAs_ClassInstance current) as [i |]; [| apply IH].
    unfold bind, fields_at. destruct (Fields s (runtime.addr i) !! id) as [next |].
    + apply IH.
    + split; reflexivity.
Qed.

Lemma VariableValue_Execute_read_only var_name dotted_ids :
  read_only (VariableValue_Execute var_name dotted_ids).
Proof.
  intros c s. unfold VariableValue_Execute.
  destruct (c !! var_name); [apply VariableValue_loop_read_only | split; reflexivity].
Qed.

(** The loop ends by returning a handle or by a missing field. *)
Lemma VariableValue_loop_completion current dotted_ids c s :
  (exists h, fst (fst (VariableValue_loop current dotted_ids c s)) = Returned h) \/
  fst (fst (VariableValue_loop current dotted_ids c s)) = Raised out_of_range.
Proof.
  revert current. induction dotted_ids as [| id rest IH]; intros current; simpl.
  - left. eexists. reflexivity.
  - destruct (TryAs_ClassInstance current) as [i |]; [| apply IH].
    unfold bind, fields_at. destruct (Fields s (runtime.addr i) !! id) as [next |].
    + apply IH.
    + right. reflexivity.
Qed.

End ReadOnly.

(** X1: a successful Assignment returns the value of its right-hand side and
    binds the name to it, every other name staying as the right-hand side
    left it; reading the name right after gives that value back. *)
Theorem Assignment_then_read (rt : Runtime) var rv c s v c1 s1 :
  Execute rt rv c s = (Returned v, c1, s1) ->
  Execute rt (Assignment var rv) c s = (Returned v, <[var := v]> c1, s1) /\
  Execute rt (VariableValue var []) (<[var := v]> c1) s1
    = (Returned v, <[var := v]> c1, s1) /\
  (forall other, other <> var -> (<[var := v]> c1) !! other = c1 !! other).
Proof.
  intros Hrv. split; [| split].
  - simpl. unfold bind, closure_set, closure_at. rewrite Hrv.
    rewrite lookup_insert_eq. reflexivity.
  - simpl. unfold VariableValue_Execute. rewrite lookup_insert_eq. reflexivity.
  - intros other Hne. apply lookup_insert_ne. congruence.
Qed.

Lemma Assignment_then_read_witness :
  Execute plain_runtime (Assignment "x" (Add (NumericConst 2) (NumericConst 3)))
    {[ "y" := runtime.None ]} fresh_store
  = (Returned (runtime.Own (runtime.Number 5)),
     <[ "x" := runtime.Own (runtime.Number 5) ]> {[ "y" := runtime.None ]}, fresh_store).
Proof.
  assert (Hrv : Execute plain_runtime (Add (NumericConst 2) (NumericConst 3))
                  {[ "y" := runtime.None ]} fresh_store
                = (Returned (runtime.Own (runtime.Number 5)),
                   {[ "y" := runtime.None ]}, fresh_store)) by reflexivity.
  exact (proj1 (Assignment_then_read plain_runtime "x" _ _ _ _ _ _ Hrv)).
Defined.

(** X2: VariableValue only reads: whatever the name, the attribute chain,
    the closure and the store, both closure and store are afterwards as they
    were.  It throws the runtime error of an unknown name exactly when the
    name is not in the closure; for a name that is bound it returns a handle
    or throws the out_of_range of a missing field, and without an attribute
    chain it returns the binding itself. *)
Theorem VariableValue_reads_only (rt : Runtime) var_name dotted_ids (c : Closure) s :
  exists r,
    Execute rt (VariableValue var_name dotted_ids) c s = (r, c, s) /\
    match c !! var_name with
    | None => r = Raised (runtime_error "Failed to VariableValue::Execute!")
    | Some current =>
        ((exists h, r = Returned h) \/ r = Raised out_of_range) /\
        (dotted_ids = [] -> r = Returned current)
    end.
Proof.
  simpl.
  destruct (VariableValue_Execute_read_only var_name dotted_ids c s) as [Hc Hs].
  destruct (VariableValue_Execute var_name dotted_ids c s) as [[r c'] s'] eqn:Hrun.
  simpl in Hc, Hs. subst c' s'. exists r. split; [reflexivity |].
  unfold VariableValue_Execute in Hrun.
  destruct (c !! var_name) as [current |] eqn:Hlook.
  - split.
    + destruct (VariableValue_loop_completion current dotted_ids c s) as [[h Hh] | Hout];
        rewrite Hrun in *; simpl in *; [left; eauto | right; assumption].
    + intros ->. simpl in Hrun. unfold ret in Hrun. injection Hrun as <-. reflexivity.
  - unfold raise in Hrun. injection Hrun as <-. reflexivity.
Qed.

(** X3: reading a field that an instance does not have throws out_of_range,
    not the runtime error of the other failures, and changes nothing; a
    method body around it turns it into its own runtime error. *)
Theorem VariableValue_missing_field (rt : Runtime) var_name id rest (c : Closure) s h i :
  c !! var_name = Some h ->
  TryAs_ClassInstance h = Some i ->
  Fields s (runtime.addr i) !! id = None ->
  Execute rt (VariableValue var_name (id :: rest)) c s = (Raised out_of_range, c, s) /\
  Execute rt (MethodBody (VariableValue var_name (id :: rest))) c s
    = (Raised (runtime_error "MethodBody::Catched undefined object"), c, s).
Proof.
  intros Hlook Hi Hfield.
  assert (Hrun : Execute rt (VariableValue var_name (id :: rest)) c s
                 = (Raised out_of_range, c, s)).
  { simpl. unfold VariableValue_Execute. rewrite Hlook. simpl. rewrite Hi.
    unfold bind, fields_at. rewrite Hfield. reflexivity. }
  split; [exact Hrun |].
  apply MethodBody_catch_all with (e := out_of_range); [exact Hrun | discriminate].
Qed.

Lemma VariableValue_missing_field_witness :
  Execute plain_runtime (VariableValue "p" ["x"; "y"])
    {[ "p" := runtime.Share (runtime.Instance {| runtime.cls := 1%N; runtime.addr := 10%N |}) ]}
    fresh_store
  = (Raised out_of_range,
     {[ "p" := runtime.Share (runtime.Instance {| runtime.cls := 1%N; runtime.addr := 10%N |}) ]},
     fresh_store).
Proof.
  refine (proj1 (VariableValue_missing_field plain_runtime "p" "x" ["y"] _ fresh_store
                   (runtime.Share (runtime.Instance
                      {| runtime.cls := 1%N; runtime.addr := 10%N |}))
                   {| runtime.cls := 1%N; runtime.addr := 10%N |} _ _ _));
    reflexivity.
Defined.

(** ** Fields of instances *)

Lemma Fields_set_Fields_eq (a : Addr) (f : Closure) (s : Store) :
  Fields (set_Fields a f s) a = f.
Proof. unfold Fields, set_Fields. simpl. rewrite lookup_insert_eq. reflexivity. Qed.

Lemma Fields_set_Fields_ne (a b : Addr) (f : Closure) (s : Store) :
  a <> b -> Fields (set_Fields a f s) b = Fields s b.
Proof.
  intros Hne. unfold Fields, set_Fields. simpl.
  rewrite lookup_insert_ne by exact Hne. reflexivity.
Qed.

(** X4: a FieldAssignment whose target is an instance runs the right-hand
    side, stores its value under the field name in that instance and returns
    it.  Afterwards the field holds the value, the other fields of the
    instance, the fields of every other instance and the output are as the
    right-hand side left them, and reading the field through a variable
    bound to the instance gives the value back. *)
Theorem FieldAssignment_then_read (rt : Runtime)
        var_name dotted_ids field_name rv c s object i v c1 s1 :
  Execute rt (VariableValue var_name dotted_ids) c s = (Returned object, c, s) ->
  TryAs_ClassInstance object = Some i ->
  Execute rt rv c s = (Returned v, c1, s1) ->
  let s2 := set_Fields (runtime.addr i)
              (<[field_name := v]> (Fields s1 (runtime.addr i))) s1 in
  Execute rt (FieldAssignment (var_name, dotted_ids) field_name rv) c s
    = (Returned v, c1, s2) /\
  Fields s2 (runtime.addr i) !! field_name = Some v /\
  (forall f, f <> field_name ->
     Fields s2 (runtime.addr i) !! f = Fields s1 (runtime.addr i) !! f) /\
  (forall a, a <> runtime.addr i -> Fields s2 a = Fields s1 a) /\
  out s2 = out s1 /\
  (forall x h, c1 !! x = Some h -> TryAs_ClassInstance h = Some i ->
     Execute rt (VariableValue x [field_name]) c1 s2 = (Returned v, c1, s2)).
Proof.
  intros Hobj Hi Hrv s2.
  assert (Hfield : Fields s2 (runtime.addr i) !! field_name = Some v).
  { unfold s2. rewrite Fields_set_Fields_eq. apply lookup_insert_eq. }
  split; [| split; [exact Hfield | split; [| split; [| split]]]].
  - simpl in *. unfold bind. rewrite Hobj, Hi, Hrv.
    unfold fields_set, fields_at. fold s2. rewrite Hfield. reflexivity.
  - intros f Hne. unfold s2. rewrite Fields_set_Fields_eq.
    apply lookup_insert_ne. congruence.
  - intros a Hne. unfold s2. apply Fields_set_Fields_ne. congruence.
  - reflexivity.
  - intros x h Hx Hh. simpl. unfold VariableValue_Execute. rewrite Hx. simpl.
    rewrite Hh. unfold bind, fields_at. rewrite Hfield. reflexivity.
Qed.

Lemma FieldAssignment_then_read_witness :
  Execute plain_runtime (VariableValue "p" ["x"])
    {[ "p" := runtime.Share (runtime.Instance {| runtime.cls := 1%N; runtime.addr := 10%N |}) ]}
    (set_Fields 10%N (<[ "x" := runtime.Share (runtime.Number 3) ]> (Fields fresh_store 10%N))
       fresh_store)
  = (Returned (runtime.Share (runtime.Number 3)),
     {[ "p" := runtime.Share (runtime.Instance {| runtime.cls := 1%N; runtime.addr := 10%N |}) ]},
     set_Fields 10%N (<[ "x" := runtime.Share (runtime.Number 3) ]> (Fields fresh_store 10%N))
       fresh_store).
Proof.
  set (p := runtime.Share (runtime.Instance {| runtime.cls := 1%N; runtime.addr := 10%N |})).
  assert (Hobj : Execute plain_runtime (VariableValue "p" []) {[ "p" := p ]} fresh_store
                 = (Returned p, {[ "p" := p ]}, fresh_store)) by reflexivity.
  assert (Hrv : Execute plain_runtime (NumericConst 3) {[ "p" := p ]} fresh_store
                = (Returned (runtime.Share (runtime.Number 3)), {[ "p" := p ]}, fresh_store))
    by reflexivity.
  destruct (FieldAssignment_then_read plain_runtime "p" [] "x" (NumericConst 3)
              _ _ _ {| runtime.cls := 1%N; runtime.addr := 10%N |} _ _ _
              Hobj eq_refl Hrv) as (_ & _ & _ & _ & _ & Hread).
  exact (Hread "p" p eq_refl eq_refl).
Defined.

(** X5: a FieldAssignment whose target is an unknown name or a value that is
    not an instance fails with a runtime error before the right-hand side is
    run: closure and store are untouched, whatever the right-hand side is. *)
Theorem FieldAssignment_bad_target (rt : Runtime)
        var_name dotted_ids field_name rv (c : Closure) s :
  (c !! var_name = None ->
   Execute rt (FieldAssignment (var_name, dotted_ids) field_name rv) c s
     = (Raised (runtime_error "Failed to VariableValue::Execute!"), c, s)) /\
  (forall object,
     Execute rt (VariableValue var_name dotted_ids) c s = (Returned object, c, s) ->
     TryAs_ClassInstance object = None ->
     Execute rt (FieldAssignment (var_name, dotted_ids) field_name rv) c s
       = (Raised (runtime_error "Failed to FieldAssignment::Execute "), c, s)).
Proof.
  split.
  - intros Hnone. simpl. unfold bind, VariableValue_Execute. rewrite Hnone. reflexivity.
  - intros object Hobj Hn. simpl in *. unfold bind. rewrite Hobj, Hn. reflexivity.
Qed.

Lemma FieldAssignment_bad_target_witness :
  Execute plain_runtime
    (FieldAssignment ("q", []) "x" (Print [StringConst "not run"])) ∅ fresh_store
  = (Raised (runtime_error "Failed to VariableValue::Execute!"), ∅, fresh_store)
  /\ Execute plain_runtime
       (FieldAssignment ("n", []) "x" (Print [StringConst "not run"]))
       {[ "n" := runtime.Own (runtime.Number 1) ]} fresh_store
     = (Raised (runtime_error "Failed to FieldAssignment::Execute "),
        {[ "n" := runtime.Own (runtime.Number 1) ]}, fresh_store).
Proof.
  split.
  - exact (proj1 (FieldAssignment_bad_target plain_runtime "q" [] "x"
                    (Print [StringConst "not run"]) ∅ fresh_store) eq_refl).
  - assert (Hobj : Execute plain_runtime (VariableValue "n" [])
                     {[ "n" := runtime.Own (runtime.Number 1) ]} fresh_store
                   = (Returned (runtime.Own (runtime.Number 1)),
                      {[ "n" := runtime.Own (runtime.Number 1) ]}, fresh_store))
      by reflexivity.
    exact (proj2 (FieldAssignment_bad_target plain_runtime "n" [] "x"
                    (Print [StringConst "not run"]) _ fresh_store) _ Hobj eq_refl).
Defined.

(** ** Class definitions *)

(** X6: a ClassDefinition binds the class handle under the name of the
    class and returns the empty handle; the name then reads as that handle,
    and a second definition under the same name replaces the first. *)
Theorem ClassDefinition_binds (rt : Runtime) cls k c s :
  TryAs_Class cls = Some k ->
  Execute rt (ClassDefinition cls) c s
    = (Returned runtime.None, <[GetName rt k := cls]> c, s) /\
  Execute rt (VariableValue (GetName rt k) []) (<[GetName rt k := cls]> c) s
    = (Returned cls, <[GetName rt k := cls]> c, s) /\
  (forall cls' k', TryAs_Class cls' = Some k' -> GetName rt k' = GetName rt k ->
     Execute rt (Compound [ClassDefinition cls; ClassDefinition cls']) c s
       = (Returned runtime.None, <[GetName rt k := cls']> c, s)).
Proof.
  intros Hk. split; [| split].
  - simpl. rewrite Hk. reflexivity.
  - simpl. unfold VariableValue_Execute. rewrite lookup_insert_eq. reflexivity.
  - intros cls' k' Hk' Hname. simpl. rewrite Hk, Hk'. unfold bind, closure_set, ret.
    rewrite Hname, insert_insert_eq. reflexivity.
Qed.

Lemma ClassDefinition_binds_witness :
  Execute (model.runtime_of point_classes 0)
    (ClassDefinition (runtime.Share (runtime.Class 1%N))) ∅ fresh_store
  = (Returned runtime.None, {[ "Point" := runtime.Share (runtime.Class 1%N) ]}, fresh_store).
Proof.
  exact (proj1 (ClassDefinition_binds (model.runtime_of point_classes 0)
                  (runtime.Share (runtime.Class 1%N)) 1%N ∅ fresh_store eq_refl)).
Defined.

(** ** Compound statements *)

Section CompoundLoop.

Variable rt : Runtime.

Lemma Compound_loop_app a b c s :
  Compound_loop (Execute rt) (a ++ b) c s =
  (do _ <- Compound_loop (Execute rt) a; Compound_loop (Execute rt) b) c s.
Proof.
  revert c s. induction a as [| stmt a IH]; intros c s; simpl.
  - reflexivity.
  - unfold bind.
    destruct (Execute rt stmt c s) as [[[v | e |] c1] s1]; try reflexivity.
    rewrite IH. unfold bind. reflexivity.
Qed.

Lemma Compound_loop_in_order args c s hs c' s' :
  args_in_order rt args c s hs c' s' ->
  Compound_loop (Execute rt) args c s = (Returned tt, c', s').
Proof.
  induction 1 as [c s | arg rest c s h c1 s1 hs c2 s2 Harg _ IH]; simpl.
  - reflexivity.
  - unfold bind. rewrite Harg. exact IH.
Qed.

(** The statements before a failing one run, the ones after it do not. *)
Lemma Compound_loop_stops pre stmt post c s hs c1 s1 e c2 s2 :
  args_in_order rt pre c s hs c1 s1 ->
  Execute rt stmt c1 s1 = (Raised e, c2, s2) ->
  Compound_loop (Execute rt) (pre ++ stmt :: post) c s = (Raised e, c2, s2).
Proof.
  intros Hpre Hstmt. rewrite Compound_loop_app. unfold bind at 1.
  rewrite (Compound_loop_in_order _ _ _ _ _ _ Hpre). simpl.
  unfold bind. rewrite Hstmt. reflexivity.
Qed.

End CompoundLoop.

(** X7: a Compound runs its statements as a sequence: the compound of two
    lists put together is the compound of the first followed by the compound
    of the second, a statement added with AddStatement runs after all the
    earlier ones, and the empty compound returns the empty handle and
    changes nothing. *)
Theorem Compound_sequence (rt : Runtime) a b c s :
  Execute rt (Compound (a ++ b)) c s
    = (do _ <- Execute rt (Compound a); Execute rt (Compound b)) c s /\
  (forall stmt,
     Execute rt (Compound (AddStatement a stmt)) c s
       = (do _ <- Execute rt (Compound a);
          do _ <- Execute rt stmt;
          ret runtime.None) c s) /\
  Execute rt (Compound []) c s = (Returned runtime.None, c, s).
Proof.
  split; [| split].
  - simpl. unfold bind at 1 2 3. rewrite Compound_loop_app. unfold bind at 1.
    destruct (Compound_loop (Execute rt) a c s) as [[[[] | e |] c1] s1]; reflexivity.
  - intros stmt. unfold AddStatement. simpl. unfold bind at 1 2 3.
    rewrite Compound_loop_app. unfold bind at 1.
    destruct (Compound_loop (Execute rt) a c s) as [[[[] | e |] c1] s1];
      try reflexivity.
    simpl. unfold bind.
    destruct (Execute rt stmt c1 s1) as [[[v | e |] c2] s2]; reflexivity.
  - reflexivity.
Qed.

(** X8: a Compound stops at the first statement that fails: with the
    statements before it completed one after the other, the failure leaves
    the compound in the state the failing statement left, and no statement
    after it is run.  When every statement completes, the compound returns
    the empty handle, whatever the statements returned. *)
Theorem Compound_stops_at_failure (rt : Runtime) pre c s hs c1 s1 :
  args_in_order rt pre c s hs c1 s1 ->
  Execute rt (Compound pre) c s = (Returned runtime.None, c1, s1) /\
  (forall stmt post e c2 s2,
     Execute rt stmt c1 s1 = (Raised e, c2, s2) ->
     Execute rt (Compound (pre ++ stmt :: post)) c s = (Raised e, c2, s2)).
Proof.
  intros Hpre. split.
  - simpl. unfold bind. rewrite (Compound_loop_in_order rt _ _ _ _ _ _ Hpre).
    reflexivity.
  - intros stmt post e c2 s2 Hstmt. simpl. unfold bind.
    rewrite (Compound_loop_stops rt _ _ post _ _ _ _ _ _ _ _ Hpre Hstmt). reflexivity.
Qed.

Lemma Compound_stops_at_failure_witness :
  Execute plain_runtime
    (Compound ([Assignment "x" (NumericConst 1)]
               ++ Div (NumericConst 1) (NumericConst 0)
               :: [Assignment "x" (NumericConst 2)]))
    ∅ fresh_store
  = (Raised (runtime_error "Сannot be divided by 0 "),
     {[ "x" := runtime.Share (runtime.Number 1) ]}, fresh_store).
Proof.
  assert (Hpre : args_in_order plain_runtime [Assignment "x" (NumericConst 1)]
                   ∅ fresh_store [runtime.Share (runtime.Number 1)]
                   {[ "x" := runtime.Share (runtime.Number 1) ]} fresh_store).
  { eapply args_next; [reflexivity | apply args_done]. }
  destruct (Compound_stops_at_failure plain_runtime _ _ _ _ _ _ Hpre) as [_ Hstop].
  apply Hstop. reflexivity.
Defined.

(** X9: a Return among the statements of a method body ends the method: when
    the statements before it complete and its expression yields a value, the
    method body returns that value in the state the expression left, and the
    statements after the Return are not run. *)
Theorem Return_ends_method_body (rt : Runtime) pre statement post c s hs c1 s1 v c2 s2 :
  args_in_order rt pre c s hs c1 s1 ->
  Execute rt statement c1 s1 = (Returned v, c2, s2) ->
  Execute rt (MethodBody (Compound (pre ++ Return statement :: post))) c s
    = (Returned v, c2, s2).
Proof.
  intros Hpre Hst. apply MethodBody_catches_Return.
  simpl. unfold bind.
  rewrite (Compound_loop_stops rt pre (Return statement) post _ _ _ _ _
             (ThrownObject v) c2 s2 Hpre); [reflexivity |].
  apply Return_Execute. exact Hst.
Qed.

Lemma Return_ends_method_body_witness :
  Execute plain_runtime
    (MethodBody
       (Compound ([Assignment "x" (NumericConst 1)]
                  ++ Return (Add (VariableValue "x" []) (NumericConst 1))
                  :: [Print [StringConst "not run"]])))
    ∅ fresh_store
  = (Returned (runtime.Own (runtime.Number 2)),
     {[ "x" := runtime.Share (runtime.Number 1) ]}, fresh_store).
Proof.
  assert (Hpre : args_in_order plain_runtime [Assignment "x" (NumericConst 1)]
                   ∅ fresh_store [runtime.Share (runtime.Number 1)]
                   {[ "x" := runtime.Share (runtime.Number 1) ]} fresh_store).
  { eapply args_next; [reflexivity | apply args_done]. }
  apply (Return_ends_method_body plain_runtime _ _ _ _ _ _ _ _ _ _ _ Hpre).
  reflexivity.
Defined.

(** X10: no Return transfer gets out of a method body: whatever the body
    does, a MethodBody never ends by throwing a value handle, and the only
    thing it ever throws is the runtime error with its own fixed message. *)
Theorem MethodBody_contains_transfer (rt : Runtime) body c s e c' s' :
  Execute rt (MethodBody body) c s = (Raised e, c', s') ->
  e = runtime_error "MethodBody::Catched undefined object" /\
  (forall obj, e <> ThrownObject obj).
Proof.
  simpl. unfold MethodBody_try.
  destruct (Execute rt body c s) as [[[v | [obj | what |] |] c1] s1];
    intros H; try discriminate; injection H as <- _ _;
    (split; [reflexivity | intros obj'; discriminate]).
Qed.

Lemma MethodBody_contains_transfer_witness :
  exists e,
    Execute plain_runtime (MethodBody (VariableValue "missing" [])) ∅ fresh_store
      = (Raised e, ∅, fresh_store)
    /\ e = runtime_error "MethodBody::Catched undefined object".
Proof.
  assert (Hrun : Execute plain_runtime (MethodBody (VariableValue "missing" []))
                   ∅ fresh_store
                 = (Raised (runtime_error "MethodBody::Catched undefined object"),
                    ∅, fresh_store)) by reflexivity.
  eexists. split; [exact Hrun |].
  exact (proj1 (MethodBody_contains_transfer plain_runtime _ _ _ _ _ _ Hrun)).
Defined.

(** ** Arguments, calls and constructors *)

Section Arguments.

Variable rt : Runtime.

Lemma args_in_order_length args c s hs c' s' :
  args_in_order rt args c s hs c' s' -> length hs = length args.
Proof. induction 1; simpl; [reflexivity | f_equal; assumption]. Qed.

(** The loop returns only by running every argument in order. *)
Lemma ExecuteArgs_returned args :
  forall method_args c s result c' s',
    ExecuteArgs (Execute rt) method_args args c s = (Returned result, c', s') ->
    exists hs, result = (method_args ++ hs)%list /\ args_in_order rt args c s hs c' s'.
Proof.
  induction args as [| arg rest IH]; intros method_args c s result c' s'; simpl.
  - unfold ret. intros H. injection H as <- <- <-.
    exists []. split; [rewrite app_nil_r; reflexivity | constructor].
  - unfold bind. destruct (Execute rt arg c s) as [[[h | e |] c1] s1] eqn:Harg;
      try discriminate.
    intros H. destruct (IH _ _ _ _ _ _ H) as (hs & -> & Hrest).
    exists (h :: hs). split; [rewrite <- app_assoc; reflexivity |].
    econstructor; eassumption.
Qed.

(** A failing argument ends the loop in the state it left. *)
Lemma ExecuteArgs_stops pre bad post c s hs c1 s1 e c2 s2 :
  args_in_order rt pre c s hs c1 s1 ->
  Execute rt bad c1 s1 = (Raised e, c2, s2) ->
  forall method_args,
    ExecuteArgs (Execute rt) method_args (pre ++ bad :: post) c s = (Raised e, c2, s2).
Proof.
  induction 1 as [c s | arg rest c s h c1 s1 hs c3 s3 Harg _ IH];
    intros Hbad method_args; simpl.
  - unfold bind. rewrite Hbad. reflexivity.
  - unfold bind. rewrite Harg. apply IH. exact Hbad.
Qed.

End Arguments.

(** X11: when an argument of a MethodCall or of a NewInstance with a
    matching [__init__] fails, the arguments before it having run in order,
    the node fails the same way in the state that argument left: the later
    arguments are not run and the method is not called. *)
Theorem argument_failure_cancels_call (rt : Runtime) pre bad post c s hs c1 s1 e c2 s2 :
  args_in_order rt pre c s hs c1 s1 ->
  Execute rt bad c1 s1 = (Raised e, c2, s2) ->
  (forall object method c0 s0 h instance,
     Execute rt object c0 s0 = (Returned h, c, s) ->
     TryAs_ClassInstance h = Some instance ->
     Execute rt (MethodCall object method (pre ++ bad :: post)) c0 s0
       = (Raised e, c2, s2)) /\
  (forall class_instance,
     HasMethod rt (runtime.cls class_instance) INIT_METHOD
       (length (pre ++ bad :: post)) = true ->
     Execute rt (NewInstance class_instance (pre ++ bad :: post)) c s
       = (Raised e, c2, s2)).
Proof.
  intros Hpre Hbad. split.
  - intros object method c0 s0 h instance Hobj Hi. simpl. unfold bind.
    rewrite Hobj, Hi.
    rewrite (ExecuteArgs_stops rt _ _ post _ _ _ _ _ _ _ _ Hpre Hbad []). reflexivity.
  - intros class_instance Hinit. simpl. rewrite Hinit. unfold bind.
    rewrite (ExecuteArgs_stops rt _ _ post _ _ _ _ _ _ _ _ Hpre Hbad []). reflexivity.
Qed.

Lemma argument_failure_cancels_call_witness :
  Execute (model.runtime_of point_classes 1)
    (NewInstance {| runtime.cls := 1%N; runtime.addr := 10%N |}
       ([NumericConst 3] ++ Div (NumericConst 4) (NumericConst 0) :: []))
    ∅ fresh_store
  = (Raised (runtime_error "Сannot be divided by 0 "), ∅, fresh_store).
Proof.
  assert (Hpre : args_in_order (model.runtime_of point_classes 1) [NumericConst 3]
                   ∅ fresh_store [runtime.Share (runtime.Number 3)] ∅ fresh_store).
  { eapply args_next; [reflexivity | apply args_done]. }
  assert (Hbad : Execute (model.runtime_of point_classes 1)
                   (Div (NumericConst 4) (NumericConst 0)) ∅ fresh_store
                 = (Raised (runtime_error "Сannot be divided by 0 "), ∅, fresh_store))
    by reflexivity.
  destruct (argument_failure_cancels_call _ _ _ [] _ _ _ _ _ _ _ _ Hpre Hbad)
    as [_ Hnew].
  apply Hnew. reflexivity.
Defined.

(** X12: what a NewInstance that returns has done.  The handle is the shared
    handle of the node's own instance.  Without a matching [__init__]
    nothing was run and nothing changed.  With one, every argument was run
    in order and [__init__] was called on the instance with exactly as many
    handles as the arity that was looked up; its own result was dropped. *)
Theorem NewInstance_returned (rt : Runtime) class_instance args c s h c' s' :
  Execute rt (NewInstance class_instance args) c s = (Returned h, c', s') ->
  h = runtime.Share (runtime.Instance class_instance) /\
  (HasMethod rt (runtime.cls class_instance) INIT_METHOD (length args) = false ->
     c' = c /\ s' = s) /\
  (HasMethod rt (runtime.cls class_instance) INIT_METHOD (length args) = true ->
     exists hs s1 v,
       args_in_order rt args c s hs c' s1 /\
       length hs = length args /\
       Call rt class_instance INIT_METHOD hs s1 = (Returned v, s')).
Proof.
  simpl.
  destruct (HasMethod rt (runtime.cls class_instance) INIT_METHOD (length args)).
  - unfold bind.
    destruct (ExecuteArgs (Execute rt) [] args c s) as [[[tmp_args | e |] c1] s1] eqn:Hargs;
      try discriminate.
    unfold lift.
    destruct (Call rt class_instance INIT_METHOD tmp_args s1) as [[v | e |] s2] eqn:Hcall;
      try discriminate.
    unfold ret. intros H. injection H as <- <- <-.
    split; [reflexivity | split; [discriminate |]]. intros _.
    destruct (ExecuteArgs_returned rt _ _ _ _ _ _ _ Hargs) as (hs & Heq & Horder).
    simpl in Heq. subst tmp_args. exists hs, s1, v.
    split; [exact Horder | split; [| exact Hcall]].
    eapply args_in_order_length; eassumption.
  - unfold ret. intros H. injection H as <- <- <-.
    split; [reflexivity | split; [intros _; split; reflexivity | discriminate]].
Qed.

Lemma NewInstance_returned_witness :
  exists hs s1 v,
    args_in_order (model.runtime_of point_classes 1) [NumericConst 3; NumericConst 4]
      ∅ fresh_store hs ∅ s1 /\
    length hs = 2%nat /\
    Call (model.runtime_of point_classes 1)
      {| runtime.cls := 1%N; runtime.addr := 10%N |} INIT_METHOD hs s1
    = (Returned v,
       set_Fields 10%N
         (<[ "y" := runtime.Share (runtime.Number 4) ]>
            (<[ "x" := runtime.Share (runtime.Number 3) ]> ∅))
         (set_Fields 10%N (<[ "x" := runtime.Share (runtime.Number 3) ]> ∅) fresh_store)).
Proof.
  assert (Hrun : Execute (model.runtime_of point_classes 1)
                   (NewInstance {| runtime.cls := 1%N; runtime.addr := 10%N |}
                      [NumericConst 3; NumericConst 4]) ∅ fresh_store
                 = (Returned (runtime.Share
                      (runtime.Instance {| runtime.cls := 1%N; runtime.addr := 10%N |})),
                    ∅,
                    set_Fields 10%N
                      (<[ "y" := runtime.Share (runtime.Number 4) ]>
                         (<[ "x" := runtime.Share (runtime.Number 3) ]> ∅))
                      (set_Fields 10%N (<[ "x" := runtime.Share (runtime.Number 3) ]> ∅)
                         fresh_store)))
    by (vm_compute; reflexivity).
  destruct (NewInstance_returned _ _ _ _ _ _ _ _ Hrun) as (_ & _ & Hinit).
  exact (Hinit eq_refl).
Defined.

(** ** Stringify *)

Lemma Print_Execute_one (rt : Runtime) arg c s :
  Execute rt (Print [arg]) c s =
    (do object <- Execute rt arg;
     do _ <- print_object rt object;
     do _ <- write endl;
     ret runtime.None) c s.
Proof.
  simpl. unfold bind, ret.
  destruct (Execute rt arg c s) as [[[object | e |] c1] s1]; try reflexivity.
  destruct (print_object rt object c1 s1) as [[[[] | e |] c2] s2]; reflexivity.
Qed.

(** X13: Stringify always hands back a newly owned String, the text "None"
    for the empty handle.  With a runtime that prints a String as its
    characters, printing the stringified value and printing the value itself
    are the same run: same output, same state, same completion. *)
Theorem Stringify_then_Print (rt : Runtime) argument c s :
  (forall h c' s', Execute rt (Stringify argument) c s = (Returned h, c', s') ->
     exists text, h = runtime.Own (runtime.String text)) /\
  (forall c1 s1, Execute rt argument c s = (Returned runtime.None, c1, s1) ->
     Execute rt (Stringify argument) c s
       = (Returned (runtime.Own (runtime.String "None")), c1, s1)) /\
  ((forall v s0, Object_Print rt (runtime.String v) s0 = (Returned v, s0)) ->
   Execute rt (Print [Stringify argument]) c s = Execute rt (Print [argument]) c s).
Proof.
  split; [| split].
  - intros h c' s'. simpl. unfold bind.
    destruct (Execute rt argument c s) as [[[a | e |] c1] s1]; try discriminate.
    destruct (runtime.Get a) as [o |].
    + unfold lift. destruct (Object_Print rt o s1) as [[text | e |] s2];
        try discriminate.
      unfold ret. intros H. injection H as <- _ _. eexists. reflexivity.
    + unfold ret. intros H. injection H as <- _ _. eexists. reflexivity.
  - intros c1 s1 Harg. simpl. unfold bind. rewrite Harg. reflexivity.
  - intros Hstring. rewrite !Print_Execute_one. cbn [Execute]. unfold bind.
    destruct (Execute rt argument c s) as [[[a | e |] c1] s1]; try reflexivity.
    unfold print_object.
    destruct (runtime.Get a) as [o |].
    + unfold bind, lift.
      destruct (Object_Print rt o s1) as [[text | e |] s2]; try reflexivity.
      unfold ret. cbn [runtime.Get]. rewrite Hstring. reflexivity.
    + unfold ret. cbn [runtime.Get]. unfold bind, lift. rewrite Hstring. reflexivity.
Qed.

Lemma Stringify_then_Print_witness :
  Execute plain_runtime (Print [Stringify (NumericConst (-12))]) ∅ fresh_store
  = Execute plain_runtime (Print [NumericConst (-12)]) ∅ fresh_store.
Proof.
  destruct (Stringify_then_Print plain_runtime (NumericConst (-12)) ∅ fresh_store)
    as (_ & _ & Hsame).
  apply Hsame. intros v s0. reflexivity.
Defined.

(** ** Arithmetic *)

Lemma TryAs_Number_not_String h a : TryAs_Number h = Some a -> TryAs_String h = None.
Proof.
  unfold TryAs_Number, TryAs_String.
  destruct (runtime.Get h) as [[] |]; intros H; try discriminate; reflexivity.
Qed.

(** X14: Add past the [__add__] dispatch.  When the left operand is no
    instance with a one-argument [__add__], two Strings give their
    concatenation, two Numbers their sum as an int, and every other pair of
    operands is a runtime error.  With such an instance on the left, the
    result is that of calling [__add__] on it with the right operand. *)
Theorem Add_Execute_cases (rt : Runtime) lhs rhs c s l c1 s1 r c2 s2 :
  Execute rt lhs c s = (Returned l, c1, s1) ->
  Execute rt rhs c1 s1 = (Returned r, c2, s2) ->
  (forall i, TryAs_ClassInstance l = Some i ->
     HasMethod rt (runtime.cls i) ADD_METHOD 1 = true ->
     Execute rt (Add lhs rhs) c s
       = (fst (Call rt i ADD_METHOD [r] s2), c2, snd (Call rt i ADD_METHOD [r] s2))) /\
  ((forall i, TryAs_ClassInstance l = Some i ->
      HasMethod rt (runtime.cls i) ADD_METHOD 1 = false) ->
   (forall a b, TryAs_String l = Some a -> TryAs_String r = Some b ->
      Execute rt (Add lhs rhs) c s
        = (Returned (runtime.Own (runtime.String (a +:+ b))), c2, s2)) /\
   (forall a b, TryAs_Number l = Some a -> TryAs_Number r = Some b ->
      Execute rt (Add lhs rhs) c s
        = (Returned (runtime.Own (runtime.Number (wrap_int (a + b)))), c2, s2)) /\
   (TryAs_String l = None \/ TryAs_String r = None ->
    TryAs_Number l = None \/ TryAs_Number r = None ->
    Execute rt (Add lhs rhs) c s
      = (Raised (runtime_error "Failed to Add::Execute "), c2, s2))).
Proof.
  intros Hl Hr. split.
  - intros i Hi Hadd. simpl. unfold bind. rewrite Hl, Hr, Hi, Hadd.
    unfold lift. destruct (Call rt i ADD_METHOD [r] s2). reflexivity.
  - intros Hplain.
    assert (Hrun : Execute rt (Add lhs rhs) c s = Add_values l r c2 s2).
    { simpl. unfold bind. rewrite Hl, Hr.
      destruct (TryAs_ClassInstance l) as [i |] eqn:Hi; [| reflexivity].
      rewrite (Hplain i eq_refl). reflexivity. }
    rewrite Hrun. unfold Add_values. split; [| split].
    + intros a b Ha Hb. rewrite Ha, Hb. reflexivity.
    + intros a b Ha Hb. rewrite (TryAs_Number_not_String _ _ Ha), Ha, Hb. reflexivity.
    + intros [Hs | Hs] [Hn | Hn]; rewrite ?Hs, ?Hn;
        destruct (TryAs_String l), (TryAs_String r), (TryAs_Number l), (TryAs_Number r);
        try discriminate; reflexivity.
Qed.

Lemma Add_Execute_cases_witness :
  Execute plain_runtime (Add (StringConst "hello, ") (StringConst "world")) ∅ fresh_store
  = (Returned (runtime.Own (runtime.String "hello, world")), ∅, fresh_store)
  /\ Execute plain_runtime (Add (NumericConst 1) (StringConst "world")) ∅ fresh_store
  = (Raised (runtime_error "Failed to Add::Execute "), ∅, fresh_store).
Proof.
  split.
  - destruct (Add_Execute_cases plain_runtime (StringConst "hello, ") (StringConst "world")
                ∅ fresh_store _ _ _ _ _ _ eq_refl eq_refl) as [_ Hplain].
    destruct Hplain as (Hstr & _ & _); [intros i Hi; discriminate |].
    exact (Hstr "hello, " "world" eq_refl eq_refl).
  - destruct (Add_Execute_cases plain_runtime (NumericConst 1) (StringConst "world")
                ∅ fresh_store _ _ _ _ _ _ eq_refl eq_refl) as [_ Hplain].
    destruct Hplain as (_ & _ & Hfail); [intros i Hi; discriminate |].
    apply Hfail; [left | right]; reflexivity.
Defined.

(** X15: Sub and Mult, their operands run left then right, raise a runtime
    error exactly when an operand is not a Number; on two Numbers they return
    the difference and the product as ints. *)
Theorem Sub_Mult_Execute_spec (rt : Runtime) lhs rhs c s l c1 s1 r c2 s2 :
  Execute rt lhs c s = (Returned l, c1, s1) ->
  Execute rt rhs c1 s1 = (Returned r, c2, s2) ->
  (forall a b, TryAs_Number l = Some a -> TryAs_Number r = Some b ->
     Execute rt (Sub lhs rhs) c s
       = (Returned (runtime.Own (runtime.Number (wrap_int (a - b)))), c2, s2) /\
     Execute rt (Mult lhs rhs) c s
       = (Returned (runtime.Own (runtime.Number (wrap_int (a * b)))), c2, s2)) /\
  ((exists e, Execute rt (Sub lhs rhs) c s = (Raised e, c2, s2)) <->
   (TryAs_Number l = None \/ TryAs_Number r = None)) /\
  ((exists e, Execute rt (Mult lhs rhs) c s = (Raised e, c2, s2)) <->
   (TryAs_Number l = None \/ TryAs_Number r = None)) /\
  (TryAs_Number l = None \/ TryAs_Number r = None ->
   Execute rt (Sub lhs rhs) c s = (Raised (runtime_error "Failed to Sub::Execute "), c2, s2) /\
   Execute rt (Mult lhs rhs) c s = (Raised (runtime_error "Failed to Mult::Execute "), c2, s2)).
Proof.
  intros Hl Hr.
  assert (Hsub : Execute rt (Sub lhs rhs) c s =
                 match number_operands l r with
                 | Some (a, b) =>
                     (Returned (runtime.Own (runtime.Number (wrap_int (a - b)))), c2, s2)
                 | None => (Raised (runtime_error "Failed to Sub::Execute "), c2, s2)
                 end).
  { simpl. unfold bind. rewrite Hl, Hr.
    destruct (number_operands l r) as [[a b] |]; reflexivity. }
  assert (Hmul : Execute rt (Mult lhs rhs) c s =
                 match number_operands l r with
                 | Some (a, b) =>
                     (Returned (runtime.Own (runtime.Number (wrap_int (a * b)))), c2, s2)
                 | None => (Raised (runtime_error "Failed to Mult::Execute "), c2, s2)
                 end).
  { simpl. unfold bind. rewrite Hl, Hr.
    destruct (number_operands l r) as [[a b] |]; reflexivity. }
  rewrite Hsub, Hmul. clear Hsub Hmul.
  split; [| split; [| split]].
  - intros a b Ha Hb. rewrite (number_operands_Some _ _ _ _ Ha Hb). split; reflexivity.
  - rewrite <- number_operands_None.
    destruct (number_operands l r) as [[a b] |]; split; intros H;
      try discriminate; try reflexivity.
    + destruct H as [e H]. discriminate.
    + eexists. reflexivity.
  - rewrite <- number_operands_None.
    destruct (number_operands l r) as [[a b] |]; split; intros H;
      try discriminate; try reflexivity.
    + destruct H as [e H]. discriminate.
    + eexists. reflexivity.
  - intros H. apply number_operands_None in H. rewrite H. split; reflexivity.
Qed.

Lemma Sub_Mult_Execute_spec_witness :
  Execute plain_runtime (Sub (NumericConst 2) (NumericConst 5)) ∅ fresh_store
  = (Returned (runtime.Own (runtime.Number (-3))), ∅, fresh_store)
  /\ Execute plain_runtime (Mult (NumericConst 2) None_) ∅ fresh_store
  = (Raised (runtime_error "Failed to Mult::Execute "), ∅, fresh_store).
Proof.
  split.
  - destruct (Sub_Mult_Execute_spec plain_runtime (NumericConst 2) (NumericConst 5)
                ∅ fresh_store _ _ _ _ _ _ eq_refl eq_refl) as (Hnum & _).
    exact (proj1 (Hnum 2 5 eq_refl eq_refl)).
  - destruct (Sub_Mult_Execute_spec plain_runtime (NumericConst 2) None_
                ∅ fresh_store _ _ _ _ _ _ eq_refl eq_refl) as (_ & _ & _ & Hfail).
    exact (proj2 (Hfail (or_intror eq_refl))).
Defined.

Lemma number_operands_inv (l r : ObjectHolder) (a b : Z) :
  number_operands l r = Some (a, b) ->
  TryAs_Number l = Some a /\ TryAs_Number r = Some b.
Proof.
  unfold number_operands.
  destruct (TryAs_Number l), (TryAs_Number r); intros H; try discriminate.
  injection H as -> ->. split; reflexivity.
Qed.

(** X16: what Sub, Mult and Div have done when they return.  Both operands
    were run, the left one first, and both gave Numbers; the handle returned
    is a newly owned Number holding their difference, their product or, the
    right one not being zero, their truncating quotient.  No other value is
    ever returned, and none at all when an operand fails or is not a
    Number. *)
Theorem arithmetic_returned (rt : Runtime) lhs rhs c s h c' s' :
  (Execute rt (Sub lhs rhs) c s = (Returned h, c', s') ->
   exists l c1 s1 r a b,
     Execute rt lhs c s = (Returned l, c1, s1) /\
     Execute rt rhs c1 s1 = (Returned r, c', s') /\
     TryAs_Number l = Some a /\ TryAs_Number r = Some b /\
     h = runtime.Own (runtime.Number (wrap_int (a - b)))) /\
  (Execute rt (Mult lhs rhs) c s = (Returned h, c', s') ->
   exists l c1 s1 r a b,
     Execute rt lhs c s = (Returned l, c1, s1) /\
     Execute rt rhs c1 s1 = (Returned r, c', s') /\
     TryAs_Number l = Some a /\ TryAs_Number r = Some b /\
     h = runtime.Own (runtime.Number (wrap_int (a * b)))) /\
  (Execute rt (Div lhs rhs) c s = (Returned h, c', s') ->
   exists l c1 s1 r a b,
     Execute rt lhs c s = (Returned l, c1, s1) /\
     Execute rt rhs c1 s1 = (Returned r, c', s') /\
     TryAs_Number l = Some a /\ TryAs_Number r = Some b /\
     b <> 0 /\ ~ (a = INT_MIN /\ b = -1) /\
     h = runtime.Own (runtime.Number (wrap_int (Z.quot a b)))).
Proof.
  split; [| split]; simpl; unfold bind;
    destruct (Execute rt lhs c s) as [[[l | e |] c1] s1] eqn:Hl; try discriminate;
    destruct (Execute rt rhs c1 s1) as [[[r | e |] c2] s2] eqn:Hr; try discriminate;
    destruct (number_operands l r) as [[a b] |] eqn:Hops; try discriminate;
    destruct (number_operands_inv _ _ _ _ Hops) as [Ha Hb].
  - unfold ret. intros H. injection H as <- <- <-.
    exists l, c1, s1, r, a, b. repeat split; try assumption; reflexivity.
  - unfold ret. intros H. injection H as <- <- <-.
    exists l, c1, s1, r, a, b. repeat split; try assumption; reflexivity.
  - destruct (decide (b ≠ 0)) as [Hb0 | _]; [| discriminate].
    destruct (decide (a = INT_MIN /\ b = -1)) as [_ | Hover]; [discriminate |].
    unfold ret. intros H. injection H as <- <- <-.
    exists l, c1, s1, r, a, b.
    split; [first [exact Hl | reflexivity] |].
    split; [first [exact Hr | reflexivity] |].
    split; [exact Ha | split; [exact Hb |]].
    split; [exact Hb0 | split; [exact Hover | reflexivity]].
Qed.

Lemma arithmetic_returned_witness :
  exists l c1 s1 r a b,
    Execute plain_runtime (Assignment "x" (NumericConst 7)) ∅ fresh_store
      = (Returned l, c1, s1) /\
    Execute plain_runtime (VariableValue "x" []) c1 s1
      = (Returned r, {[ "x" := runtime.Share (runtime.Number 7) ]}, fresh_store) /\
    TryAs_Number l = Some a /\ TryAs_Number r = Some b /\
    runtime.Own (runtime.Number 0) = runtime.Own (runtime.Number (wrap_int (a - b))).
Proof.
  assert (Hrun : Execute plain_runtime
                   (Sub (Assignment "x" (NumericConst 7)) (VariableValue "x" []))
                   ∅ fresh_store
                 = (Returned (runtime.Own (runtime.Number 0)),
                    {[ "x" := runtime.Share (runtime.Number 7) ]}, fresh_store))
    by reflexivity.
  exact (proj1 (arithmetic_returned plain_runtime _ _ _ _ _ _ _) Hrun).
Defined.

(** X17: the left operand of Add, Sub, Mult, Div, Or and And runs first,
    and its failure is the failure of the node: the right operand is not
    run.  (A Comparison runs its operands in the order the compiler picks
    for the arguments of a call; it is not among these.) *)
Theorem left_operand_failure (rt : Runtime) lhs c s e c1 s1 :
  Execute rt lhs c s = (Raised e, c1, s1) ->
  forall rhs,
    Execute rt (Add lhs rhs) c s = (Raised e, c1, s1) /\
    Execute rt (Sub lhs rhs) c s = (Raised e, c1, s1) /\
    Execute rt (Mult lhs rhs) c s = (Raised e, c1, s1) /\
    Execute rt (Div lhs rhs) c s = (Raised e, c1, s1) /\
    Execute rt (Or lhs rhs) c s = (Raised e, c1, s1) /\
    Execute rt (And lhs rhs) c s = (Raised e, c1, s1).
Proof.
  intros Hl rhs. repeat split; simpl; unfold bind; rewrite Hl; reflexivity.
Qed.

Lemma left_operand_failure_witness :
  Execute plain_runtime
    (Or (VariableValue "missing" []) (Print [StringConst "not run"])) ∅ fresh_store
  = (Raised (runtime_error "Failed to VariableValue::Execute!"), ∅, fresh_store).
Proof.
  assert (Hl : Execute plain_runtime (VariableValue "missing" []) ∅ fresh_store
               = (Raised (runtime_error "Failed to VariableValue::Execute!"),
                  ∅, fresh_store)) by reflexivity.
  destruct (left_operand_failure plain_runtime _ _ _ _ _ _ Hl
              (Print [StringConst "not run"])) as (_ & _ & _ & _ & Hor & _).
  exact Hor.
Defined.

(** ** Not *)

(** X18: Not returns a newly owned Bool, the negated truth of its argument.
    With a runtime for which a Bool is as true as its value, negating twice
    gives a Bool as true as the argument itself. *)
Theorem Not_twice (rt : Runtime) argument c s v c1 s1 :
  Execute rt argument c s = (Returned v, c1, s1) ->
  Execute rt (Not argument) c s
    = (Returned (runtime.Own (runtime.Bool (negb (IsTrue rt v)))), c1, s1) /\
  ((forall b, IsTrue rt (runtime.Own (runtime.Bool b)) = b) ->
   Execute rt (Not (Not argument)) c s
     = (Returned (runtime.Own (runtime.Bool (IsTrue rt v))), c1, s1)).
Proof.
  intros Harg. split.
  - simpl. unfold bind. rewrite Harg. reflexivity.
  - intros Hbool. simpl. unfold bind. rewrite Harg. unfold ret.
    rewrite Hbool, negb_involutive. reflexivity.
Qed.

Lemma Not_twice_witness :
  Execute plain_runtime (Not (Not (StringConst "text"))) ∅ fresh_store
  = (Returned (runtime.Own (runtime.Bool true)), ∅, fresh_store).
Proof.
  destruct (Not_twice plain_runtime (StringConst "text") ∅ fresh_store
              _ _ _ eq_refl) as [_ Htwice].
  apply Htwice. intros b. reflexivity.
Defined.

(** ** What a statement leaves alone *)

(** X19: only Assignment and ClassDefinition write to the closure a
    statement runs against.  A statement holding neither node hands the
    closure back as it got it, however it completes: a method called by it
    runs against its own closure, and a failure inside does not change that. *)
Theorem Execute_leaves_closure (rt : Runtime) stmt c s :
  writes_no_scope stmt = true ->
  snd (fst (Execute rt stmt c s)) = c.
Proof. intros Hw. exact (Execute_keeps_scope rt stmt Hw c s). Qed.

Lemma Execute_leaves_closure_witness :
  snd (fst (Execute (model.runtime_of point_classes 1)
              (Compound
                 [MethodCall (VariableValue "p" []) "__init__"
                             [NumericConst 1; NumericConst 2];
                  Print [VariableValue "p" ["x"]];
                  Return (VariableValue "x" [])])
              {[ "p" := runtime.Share
                          (runtime.Instance {| runtime.cls := 1%N; runtime.addr := 10%N |}) ]}
              fresh_store))
  = {[ "p" := runtime.Share
                (runtime.Instance {| runtime.cls := 1%N; runtime.addr := 10%N |}) ]}.
Proof. apply Execute_leaves_closure. reflexivity. Defined.

(** ** The output only grows *)

Section Appends.

Variable rt : Runtime.
Hypothesis rt_appends : runtime_appends rt.

Lemma appends_unchanged {A} (m : M A) :
  (forall c s, snd (m c s) = s) -> appends m.
Proof. intros H c s. exists "". rewrite H, append_nil_r. reflexivity. Qed.

Lemma appends_ret {A} (a : A) : appends (ret a).
Proof. apply appends_unchanged. reflexivity. Qed.

Lemma appends_raise {A} (e : Exception) : appends (@raise A e).
Proof. apply appends_unchanged. reflexivity. Qed.

Lemma appends_undefined {A} : appends (@undefined A).
Proof. apply appends_unchanged. reflexivity. Qed.

Lemma appends_write text : appends (write text).
Proof. intros c s. exists text. reflexivity. Qed.

Lemma appends_lift {A} (f : Store -> Completion A * Store) :
  appends_store f -> appends (lift f).
Proof.
  intros Hf c s. destruct (Hf s) as [text Htext]. exists text.
  unfold lift. destruct (f s). exact Htext.
Qed.

Lemma appends_closure_set name h : appends (closure_set name h).
Proof. apply appends_unchanged. reflexivity. Qed.

Lemma appends_closure_at name : appends (closure_at name).
Proof.
  apply appends_unchanged. intros c s. unfold closure_at.
  destruct (c !! name); reflexivity.
Qed.

Lemma appends_fields_at a name : appends (fields_at a name).
Proof.
  apply appends_unchanged. intros c s. unfold fields_at.
  destruct (Fields s a !! name); reflexivity.
Qed.

Lemma appends_fields_set a name h : appends (fields_set a name h).
Proof. intros c s. exists "". simpl. rewrite append_nil_r. reflexivity. Qed.

Lemma appends_bind {A B} (m : M A) (k : A -> M B) :
  appends m -> (forall a, appends (k a)) -> appends (bind m k).
Proof.
  intros Hm Hk c s. unfold bind. destruct (Hm c s) as [t1 Ht1].
  destruct (m c s) as [[[a | e |] c1] s1]; simpl in Ht1.
  - destruct (Hk a c1 s1) as [t2 Ht2]. exists (t1 +:+ t2).
    rewrite Ht2, Ht1. apply append_assoc.
  - exists t1. exact Ht1.
  - exists t1. exact Ht1.
Qed.

Lemma appends_VariableValue_Execute var_name dotted_ids :
  appends (VariableValue_Execute var_name dotted_ids).
Proof.
  apply appends_unchanged. intros c s.
  apply (VariableValue_Execute_read_only var_name dotted_ids c s).
Qed.

Lemma appends_print_object object : appends (print_object rt object).
Proof.
  unfold print_object. destruct (runtime.Get object) as [o |]; [| apply appends_write].
  apply appends_bind; [apply appends_lift, rt_appends | intros text; apply appends_write].
Qed.

Lemma appends_Add_values l r : appends (Add_values l r).
Proof.
  unfold Add_values.
  destruct (TryAs_String l), (TryAs_String r), (TryAs_Number l), (TryAs_Number r);
    first [apply appends_ret | apply appends_raise].
Qed.

Lemma appends_MethodBody_try body : appends body -> appends (MethodBody_try body).
Proof.
  intros Hb c s. unfold MethodBody_try. specialize (Hb c s).
  destruct (body c s) as [[[v | [obj | what |] |] c1] s1]; exact Hb.
Qed.

Section Loops.

Variable exec : Statement -> M ObjectHolder.

Lemma appends_ExecuteArgs args :
  Forall (fun arg => appends (exec arg)) args ->
  forall method_args, appends (ExecuteArgs exec method_args args).
Proof.
  induction 1 as [| arg rest Harg _ IH]; intros method_args; simpl.
  - apply appends_ret.
  - apply appends_bind; [exact Harg | intros h; apply IH].
Qed.

Lemma appends_Print_loop args :
  Forall (fun arg => appends (exec arg)) args ->
  forall is_first, appends (Print_loop rt exec is_first args).
Proof.
  induction 1 as [| arg rest Harg _ IH]; intros is_first; simpl.
  - apply appends_ret.
  - apply appends_bind.
    { destruct (negb is_first); [apply appends_write | apply appends_ret]. }
    intros _. apply appends_bind; [exact Harg |].
    intros object. apply appends_bind; [apply appends_print_object |].
    intros _. apply IH.
Qed.

Lemma appends_Compound_loop args :
  Forall (fun arg => appends (exec arg)) args ->
  appends (Compound_loop exec args).
Proof.
  induction 1 as [| arg rest Harg _ IH]; simpl.
  - apply appends_ret.
  - apply appends_bind; [exact Harg | intros _; exact IH].
Qed.

End Loops.

Lemma Forall_comparators_append (args : list Statement) :
  Forall (fun arg => comparators_append arg -> appends (Execute rt arg)) args ->
  fold_right (fun arg rest => comparators_append arg /\ rest) True args ->
  Forall (fun arg => appends (Execute rt arg)) args.
Proof.
  induction 1 as [| arg rest Harg _ IH]; simpl; intros Hall; constructor.
  - apply Harg, Hall.
  - apply IH, Hall.
Qed.

(** With a runtime and comparators that only add to the output, so does
    every statement. *)
Lemma Execute_appends (stmt : Statement) :
  comparators_append stmt -> appends (Execute rt stmt).
Proof.
  induction stmt using Statement_nested_ind; simpl; intros Hcmp;
    repeat match type of Hcmp with
           | _ /\ _ => destruct Hcmp as [? Hcmp]
           end;
    try (apply appends_ret);
    repeat match goal with
           | IH : ?P -> appends _, H : ?P |- _ => specialize (IH H)
           end.
  - apply appends_VariableValue_Execute.
  - apply appends_bind; [assumption | intros value].
    apply appends_bind; [apply appends_closure_set | intros _; apply appends_closure_at].
  - destruct object as [var_name dotted_ids].
    apply appends_bind; [apply appends_VariableValue_Execute | intros object].
    destruct (TryAs_ClassInstance object); [| apply appends_raise].
    apply appends_bind; [assumption | intros value].
    apply appends_bind; [apply appends_fields_set | intros _; apply appends_fields_at].
  - apply appends_bind; [| intros _; apply appends_bind;
                           [apply appends_write | intros _; apply appends_ret]].
    apply appends_Print_loop, Forall_comparators_append; assumption.
  - apply appends_bind; [assumption | intros current_object].
    destruct (TryAs_ClassInstance current_object); [| apply appends_ret].
    apply appends_bind; [| intros method_args; apply appends_lift, rt_appends].
    apply appends_ExecuteArgs, Forall_comparators_append; assumption.
  - destruct (HasMethod rt (runtime.cls i) INIT_METHOD (length args));
      [| apply appends_ret].
    apply appends_bind.
    { apply appends_ExecuteArgs, Forall_comparators_append; assumption. }
    intros tmp_args.
    apply appends_bind; [apply appends_lift, rt_appends | intros _; apply appends_ret].
  - apply appends_bind; [assumption | intros executed_arg].
    destruct (runtime.Get executed_arg); [| apply appends_ret].
    apply appends_bind; [apply appends_lift, rt_appends | intros text; apply appends_ret].
  - apply appends_bind; [assumption | intros l].
    apply appends_bind; [assumption | intros r].
    destruct (TryAs_ClassInstance l) as [class_ptr |]; [| apply appends_Add_values].
    destruct (HasMethod rt (runtime.cls class_ptr) ADD_METHOD 1);
      [apply appends_lift, rt_appends | apply appends_Add_values].
  - apply appends_bind; [assumption | intros l].
    apply appends_bind; [assumption | intros r].
    destruct (number_operands l r) as [[a b] |]; [apply appends_ret | apply appends_raise].
  - apply appends_bind; [assumption | intros l].
    apply appends_bind; [assumption | intros r].
    destruct (number_operands l r) as [[a b] |]; [apply appends_ret | apply appends_raise].
  - apply appends_bind; [assumption | intros l].
    apply appends_bind; [assumption | intros r].
    destruct (number_operands l r) as [[a b] |]; [| apply appends_raise].
    destruct (decide (b ≠ 0)); [| apply appends_raise].
    destruct (decide (a = INT_MIN /\ b = -1)); [apply appends_undefined | apply appends_ret].
  - apply appends_bind; [assumption | intros l].
    destruct (IsTrue rt l); [apply appends_ret |].
    apply appends_bind; [assumption | intros r].
    destruct (IsTrue rt r); apply appends_ret.
  - apply appends_bind; [assumption | intros l].
    destruct (IsTrue rt l); [| apply appends_ret].
    apply appends_bind; [assumption | intros r].
    destruct (IsTrue rt r); apply appends_ret.
  - apply appends_bind; [assumption | intros a; apply appends_ret].
  - apply appends_bind; [| intros _; apply appends_ret].
    apply appends_Compound_loop, Forall_comparators_append; assumption.
  - apply appends_MethodBody_try. assumption.
  - apply appends_bind; [assumption | intros value; apply appends_raise].
  - destruct (TryAs_Class cls);
      [| apply appends_unchanged; reflexivity].
    apply appends_bind; [apply appends_closure_set | intros _; apply appends_ret].
  - apply appends_bind; [assumption | intros c].
    destruct (IsTrue rt c); [assumption |].
    destruct else_body as [else_ |]; [| apply appends_ret].
    auto.
  - destruct (arguments_right_to_left rt).
    + apply appends_bind; [assumption | intros r].
      apply appends_bind; [assumption | intros l].
      apply appends_bind; [apply appends_lift; auto | intros result; apply appends_ret].
    + apply appends_bind; [assumption | intros l].
      apply appends_bind; [assumption | intros r].
      apply appends_bind; [apply appends_lift; auto | intros result; apply appends_ret].
Qed.

End Appends.

(** The runtime after the specification, without any call depth left, writes
    nothing at all. *)
Lemma runtime_of_0_appends (classes : model.Classes) :
  runtime_appends (model.runtime_of classes 0).
Proof.
  split.
  - intros instance method actual_args s. exists "". simpl.
    rewrite append_nil_r. reflexivity.
  - intros o s. exists "". rewrite append_nil_r. simpl. unfold model.Print.
    destruct o as [n | v | b | k | i]; try reflexivity.
    destruct (model.HasMethod classes (runtime.cls i) "__str__" 0); reflexivity.
Qed.

(** X20: the output is never taken back.  With a runtime whose calls and
    prints only add to the output, and comparators that do the same, the
    output after any statement is the output before it followed by some
    text, however the statement completes. *)
Theorem Execute_only_appends (rt : Runtime) stmt c s :
  runtime_appends rt ->
  comparators_append stmt ->
  exists text, out (snd (Execute rt stmt c s)) = out s +:+ text.
Proof. intros Hrt Hcmp. exact (Execute_appends rt Hrt stmt Hcmp c s). Qed.

Lemma Execute_only_appends_witness :
  exists text,
    out (snd (Execute plain_runtime
                (Compound [Print [NumericConst 1];
                           Print [Div (NumericConst 1) (NumericConst 0)]])
                ∅ (put "before" fresh_store)))
    = out (put "before" fresh_store) +:+ text.
Proof.
  apply Execute_only_appends.
  - apply runtime_of_0_appends.
  - simpl. tauto.
Defined.

(** ** Print and its failures *)

Section PrintLoop.

Variable rt : Runtime.

Lemma Print_loop_in_order is_first args c s c' s' :
  prints_in_order rt is_first args c s c' s' ->
  Print_loop rt (Execute rt) is_first args c s = (Returned tt, c', s').
Proof.
  induction 1 as [is_first c s
                 | is_first arg rest c s object c1 s1 c2 s2 c3 s3 Harg Hprint _ IH];
    simpl.
  - reflexivity.
  - unfold bind. destruct is_first; simpl; unfold write, ret;
      rewrite Harg, Hprint; exact IH.
Qed.

Lemma before_next_false pre s : before_next false pre s = put " " s.
Proof. destruct pre; reflexivity. Qed.

Lemma Print_loop_stops is_first pre bad post c s c1 s1 e c2 s2 :
  prints_in_order rt is_first pre c s c1 s1 ->
  Execute rt bad c1 (before_next is_first pre s1) = (Raised e, c2, s2) ->
  Print_loop rt (Execute rt) is_first (pre ++ bad :: post) c s = (Raised e, c2, s2).
Proof.
  induction 1 as [is_first c s
                 | is_first arg rest c s object c1 s1 c3 s3 c4 s4 Harg Hprint _ IH];
    intros Hbad; simpl.
  - unfold bind. destruct is_first; simpl in *; unfold write, ret;
      rewrite Hbad; reflexivity.
  - assert (Hrest : Print_loop rt (Execute rt) false (rest ++ bad :: post) c3 s3
                    = (Raised e, c2, s2)).
    { apply IH. rewrite before_next_false. exact Hbad. }
    unfold bind. destruct is_first; simpl; unfold write, ret;
      rewrite Harg, Hprint; exact Hrest.
Qed.

End PrintLoop.

(** X21: Print is not undone by a failure, at whatever argument it comes.
    When the arguments before the failing one have been run and written in
    order, Print throws what that argument throws, in the state it left:
    the texts before it and the space after them are on the sink (nothing at
    all when it is the first argument), the arguments after it are not run
    and no line end is written.  When every argument is run and written in
    order, Print returns the empty handle after one line end. *)
Theorem Print_failure_keeps_output (rt : Runtime) c s :
  (forall args c1 s1,
     prints_in_order rt true args c s c1 s1 ->
     Execute rt (Print args) c s = (Returned runtime.None, c1, put endl s1)) /\
  (forall pre bad post c1 s1 e c2 s2,
     prints_in_order rt true pre c s c1 s1 ->
     Execute rt bad c1 (match pre with [] => s1 | _ :: _ => put " " s1 end)
       = (Raised e, c2, s2) ->
     Execute rt (Print (pre ++ bad :: post)) c s = (Raised e, c2, s2)).
Proof.
  split.
  - intros args c1 s1 Hargs. simpl. unfold bind.
    rewrite (Print_loop_in_order rt _ _ _ _ _ _ Hargs). reflexivity.
  - intros pre bad post c1 s1 e c2 s2 Hpre Hbad.
    assert (Hloop : Print_loop rt (Execute rt) true (pre ++ bad :: post) c s
                    = (Raised e, c2, s2)).
    { apply (Print_loop_stops rt true pre bad post c s c1 s1 e c2 s2 Hpre).
      destruct pre; exact Hbad. }
    simpl. unfold bind. rewrite Hloop. reflexivity.
Qed.

Lemma Print_failure_keeps_output_witness :
  Execute plain_runtime
    (Print ([StringConst "a"; NumericConst 2]
            ++ Div (NumericConst 1) (NumericConst 0)
            :: [Print [StringConst "not run"]])) ∅ fresh_store
  = (Raised (runtime_error "Сannot be divided by 0 "), ∅,
     put " " (put "2" (put " " (put "a" fresh_store)))).
Proof.
  destruct (Print_failure_keeps_output plain_runtime ∅ fresh_store) as [_ Hstop].
  apply (Hstop [StringConst "a"; NumericConst 2] _ _ ∅
               (put "2" (put " " (put "a" fresh_store)))).
  - eapply prints_next; [reflexivity | reflexivity |].
    eapply prints_next; [reflexivity | reflexivity |].
    apply prints_done.
  - reflexivity.
Defined.

(** ** Nodes built by the other constructors *)

(** X22: a VariableValue built from a list of ids takes the first id as the
    variable and the others as the attribute chain, so a one-element list is
    the plain variable.  Built from the empty list it names the empty
    variable: running it is a runtime error unless the empty name is bound. *)
Theorem VariableValue_dotted_ids_spec (rt : Runtime) :
  (forall var_name rest,
     VariableValue_dotted_ids (var_name :: rest) = VariableValue var_name rest) /\
  (forall ids, ids <> [] ->
     exists var_name rest,
       VariableValue_dotted_ids ids = VariableValue var_name rest /\
       var_name :: rest = ids) /\
  (forall (c : Closure) s, c !! "" = None ->
     Execute rt (VariableValue_dotted_ids []) c s
       = (Raised (runtime_error "Failed to VariableValue::Execute!"), c, s)) /\
  (forall (c : Closure) s h, c !! "" = Some h ->
     Execute rt (VariableValue_dotted_ids []) c s = (Returned h, c, s)).
Proof.
  split; [| split; [| split]].
  - reflexivity.
  - intros [| var_name rest] Hne; [contradiction |].
    exists var_name, rest. split; reflexivity.
  - intros c s Hnone. simpl. unfold VariableValue_Execute. rewrite Hnone. reflexivity.
  - intros c s h Hsome. simpl. unfold VariableValue_Execute. rewrite Hsome. reflexivity.
Qed.

Lemma VariableValue_dotted_ids_spec_witness :
  Execute plain_runtime (VariableValue_dotted_ids [])
    {[ "x" := runtime.Own (runtime.Number 1) ]} fresh_store
  = (Raised (runtime_error "Failed to VariableValue::Execute!"),
     {[ "x" := runtime.Own (runtime.Number 1) ]}, fresh_store).
Proof.
  destruct (VariableValue_dotted_ids_spec plain_runtime) as (_ & _ & Hempty & _).
  apply Hempty. reflexivity.
Defined.

(** X23: Print::Variable prints the value bound to the name and a line end,
    leaving the closure alone; for a name that is not bound it fails with
    the runtime error of the lookup and writes nothing, not even the line
    end. *)
Theorem Print_Variable_spec (rt : Runtime) name (c : Closure) s :
  (forall h, c !! name = Some h ->
     Execute rt (Print_Variable name) c s
       = (do _ <- print_object rt h; do _ <- write endl; ret runtime.None) c s) /\
  (c !! name = None ->
     Execute rt (Print_Variable name) c s
       = (Raised (runtime_error "Failed to VariableValue::Execute!"), c, s)).
Proof.
  unfold Print_Variable. split.
  - intros h Hsome. rewrite Print_Execute_one. cbn [Execute]. unfold bind at 1.
    unfold VariableValue_Execute. rewrite Hsome. reflexivity.
  - intros Hnone. rewrite Print_Execute_one. cbn [Execute]. unfold bind at 1.
    unfold VariableValue_Execute. rewrite Hnone. reflexivity.
Qed.

Lemma Print_Variable_spec_witness :
  Execute plain_runtime (Print_Variable "x")
    {[ "x" := runtime.Own (runtime.Bool true) ]} fresh_store
  = (Returned runtime.None, {[ "x" := runtime.Own (runtime.Bool true) ]},
     put ("True" +:+ endl) fresh_store)
  /\ Execute plain_runtime (Print_Variable "y")
       {[ "x" := runtime.Own (runtime.Bool true) ]} fresh_store
  = (Raised (runtime_error "Failed to VariableValue::Execute!"),
     {[ "x" := runtime.Own (runtime.Bool true) ]}, fresh_store).
Proof.
  destruct (Print_Variable_spec plain_runtime "x"
              {[ "x" := runtime.Own (runtime.Bool true) ]} fresh_store) as [Hbound _].
  destruct (Print_Variable_spec plain_runtime "y"
              {[ "x" := runtime.Own (runtime.Bool true) ]} fresh_store) as [_ Hfree].
  split.
  - rewrite (Hbound _ eq_refl). reflexivity.
  - apply Hfree. reflexivity.
Defined.

(** ** Conditionals and comparisons *)

(** X24: an IfElse runs its condition and then exactly one thing: with a
    truthy condition the node is its if-branch run in the state the condition
    left, result and failure alike; with a falsy one it is the else-branch,
    and without an else-branch it returns the empty handle there. *)
Theorem IfElse_Execute_spec (rt : Runtime) condition if_body else_body c s v c1 s1 :
  Execute rt condition c s = (Returned v, c1, s1) ->
  (IsTrue rt v = true ->
     Execute rt (IfElse condition if_body else_body) c s = Execute rt if_body c1 s1) /\
  (IsTrue rt v = false ->
     match else_body with
     | Some else_ =>
         Execute rt (IfElse condition if_body else_body) c s = Execute rt else_ c1 s1
     | None =>
         Execute rt (IfElse condition if_body else_body) c s
           = (Returned runtime.None, c1, s1)
     end).
Proof.
  intros Hcond. split; intros Htruth; simpl; unfold bind; rewrite Hcond, Htruth.
  - reflexivity.
  - destruct else_body; reflexivity.
Qed.

Lemma IfElse_Execute_spec_witness :
  Execute plain_runtime
    (IfElse (NumericConst 0) (Print [StringConst "then"]) None) ∅ fresh_store
  = (Returned runtime.None, ∅, fresh_store).
Proof.
  destruct (IfElse_Execute_spec plain_runtime (NumericConst 0)
              (Print [StringConst "then"]) None ∅ fresh_store _ _ _ eq_refl)
    as [_ Hfalse].
  exact (Hfalse eq_refl).
Defined.

(** X25: a Comparison runs its two operands as the arguments of one call,
    in the order the compiler takes for such arguments: left then right, or
    right then left, the second in the state the first left.  Either way
    the comparator gets the left handle first and the right handle second,
    and its answer comes back in a newly owned Bool; a comparator that
    throws makes the node throw the same.  When the operand that goes first
    fails, the other one is not run. *)
Theorem Comparison_Execute_spec (rt : Runtime) comparator lhs rhs c s :
  (arguments_right_to_left rt = false ->
   (forall l c1 s1 r c2 s2,
      Execute rt lhs c s = (Returned l, c1, s1) ->
      Execute rt rhs c1 s1 = (Returned r, c2, s2) ->
      Execute rt (Comparison comparator lhs rhs) c s = compared comparator l r c2 s2) /\
   (forall e c1 s1,
      Execute rt lhs c s = (Raised e, c1, s1) ->
      Execute rt (Comparison comparator lhs rhs) c s = (Raised e, c1, s1))) /\
  (arguments_right_to_left rt = true ->
   (forall r c1 s1 l c2 s2,
      Execute rt rhs c s = (Returned r, c1, s1) ->
      Execute rt lhs c1 s1 = (Returned l, c2, s2) ->
      Execute rt (Comparison comparator lhs rhs) c s = compared comparator l r c2 s2) /\
   (forall e c1 s1,
      Execute rt rhs c s = (Raised e, c1, s1) ->
      Execute rt (Comparison comparator lhs rhs) c s = (Raised e, c1, s1))).
Proof.
  split; intros Horder; (split; [intros x c1 s1 y c2 s2 H1 H2 | intros e c1 s1 H1]);
    simpl; rewrite Horder; unfold bind, lift, compared; rewrite H1; try reflexivity;
    rewrite H2.
  - destruct (comparator x y s2) as [[result | e |] s3]; reflexivity.
  - destruct (comparator y x s2) as [[result | e |] s3]; reflexivity.
Qed.

Lemma Comparison_Execute_spec_witness :
  Execute plain_runtime
    (Comparison (fun a b s0 => (Returned (bool_decide (TryAs_Number a = Some 1
                                                       /\ TryAs_Number b = Some 2)), s0))
                (Assignment "x" (NumericConst 1)) (Assignment "x" (NumericConst 2)))
    ∅ fresh_store
  = (Returned (runtime.Own (runtime.Bool true)),
     {[ "x" := runtime.Share (runtime.Number 1) ]}, fresh_store).
Proof.
  destruct (Comparison_Execute_spec plain_runtime
              (fun a b s0 => (Returned (bool_decide (TryAs_Number a = Some 1
                                                     /\ TryAs_Number b = Some 2)), s0))
              (Assignment "x" (NumericConst 1)) (Assignment "x" (NumericConst 2))
              ∅ fresh_store) as [_ Hright].
  destruct (Hright eq_refl) as [Hboth _].
  rewrite (Hboth (runtime.Share (runtime.Number 2))
                 {[ "x" := runtime.Share (runtime.Number 2) ]} fresh_store
                 (runtime.Share (runtime.Number 1))
                 {[ "x" := runtime.Share (runtime.Number 1) ]} fresh_store);
    reflexivity.
Defined.

(** ** Division rounds toward zero *)

(** X26: for ints a and b, b not zero and not the pair INT_MIN, -1, Div
    returns the quotient q that truncates toward zero: what is left over,
    a - q * b, is smaller than b in absolute value and never has the sign
    opposite to a (floor division would leave the sign of b). *)
Theorem Div_rounds_toward_zero (rt : Runtime) (a b : Z) c s :
  in_int a -> in_int b -> b <> 0 -> ~ (a = INT_MIN /\ b = -1) ->
  exists q,
    Execute rt (Div (NumericConst a) (NumericConst b)) c s
      = (Returned (runtime.Own (runtime.Number q)), c, s) /\
    Z.abs (a - q * b) < Z.abs b /\
    0 <= (a - q * b) * a.
Proof.
  intros Ha Hb Hb0 Hover. exists (Z.quot a b).
  assert (Hrem : a - Z.quot a b * b = Z.rem a b).
  { pose proof (Z.quot_rem' a b). lia. }
  split; [| split].
  - rewrite (Div_Execute_operands rt _ _ c s (runtime.Share (runtime.Number a)) c s
               (runtime.Share (runtime.Number b)) c s) by reflexivity.
    rewrite (number_operands_Some _ _ a b) by reflexivity.
    destruct (decide (b ≠ 0)) as [_ | Hz]; [| contradiction].
    destruct (decide (a = INT_MIN /\ b = -1)) as [Ho | _]; [contradiction |].
    rewrite wrap_int_id by (apply quot_in_int; assumption). reflexivity.
  - rewrite Hrem. apply Z.rem_bound_abs. exact Hb0.
  - rewrite Hrem. apply Z.rem_sign_mul. exact Hb0.
Qed.

Lemma Div_rounds_toward_zero_witness :
  exists q,
    Execute plain_runtime (Div (NumericConst (-7)) (NumericConst 2)) ∅ fresh_store
      = (Returned (runtime.Own (runtime.Number q)), ∅, fresh_store) /\
    Z.abs (-7 - q * 2) < Z.abs 2 /\
    0 <= (-7 - q * 2) * -7.
Proof.
  apply (Div_rounds_toward_zero plain_runtime (-7) 2 ∅ fresh_store);
    unfold in_int, INT_MIN, INT_MAX; lia.
Defined.
